(** * Invoicing app (src/index.tsx): a shallow embedding of the invoice
    composer, the draft store, the catalog, the settings loader and the
    backup file.

    Numbers.  Where only the data flow matters, a finite JavaScript
    number is modelled as an exact rational [Q]; the form handlers of
    [Module NumInput] model the full [parseFloat] result, with NaN and the
    infinities; the invoice arithmetic of [Module InvoiceDouble] is
    evaluated in IEEE 754 binary64, the primitive floats of Rocq, with
    JavaScript's rounding to nearest even.

    Storage.  [localStorage] holds strings written by [JSON.stringify]; a
    stored record is modelled by the JSON value it serialises, so two
    records are byte-identical exactly when their values are equal. *)

From Stdlib Require Import String Ascii List Bool ZArith QArith Lia Lqa.
From Stdlib Require PrimFloat.
Import ListNotations.
Open Scope string_scope.
Set Warnings "-register-all".

(* ------------------------------------------------------------------ *)
(** ** JSON values, as held by [JSON.parse] results *)

Module Json.

Inductive json : Type :=
| JNull
| JBool (b : bool)
| JNum (q : Q)
| JStr (s : string)
| JArr (xs : list json)
| JObj (fields : list (string * json)).

(** A property read: [undefined] is [None].  Later fields win, as in a
    JavaScript object literal built by spreading. *)
Definition get (k : string) (v : json) : option json :=
  match v with
  | JObj fs =>
      fold_left (fun acc kv => if String.eqb (fst kv) k then Some (snd kv) else acc)
                fs None
  | _ => None
  end.

(** JavaScript truthiness of a possibly undefined value. *)
Definition truthy (v : option json) : bool :=
  match v with
  | None => false
  | Some JNull => false
  | Some (JBool b) => b
  | Some (JNum q) => negb (Qeq_bool q 0)
  | Some (JStr s) => negb (String.eqb s "")
  | Some (JArr _) => true
  | Some (JObj _) => true
  end.

(** [x || d] *)
Definition or_default (x : option json) (d : json) : json :=
  if truthy x then match x with Some v => v | None => d end else d.

(** The own enumerable fields copied by [{...v}] where the code spreads a
    stored object.  An array or a string in that place would also give its
    index keys "0", "1", ...; they are left out here, as no code reads
    them. *)
Definition spread_fields (v : option json) : list (string * json) :=
  match v with
  | Some (JObj fs) => fs
  | _ => []
  end.

End Json.

(* ------------------------------------------------------------------ *)
(** ** Invoice items and totals (InvoiceEditor) *)

Module Invoice.

Record Product := mkProduct {
  p_id : string;
  p_code : string;
  p_name : string;
  p_description : string;
  p_price : Q;
  p_image : option string
}.

Record InvoiceItem := mkItem {
  it_id : string;
  it_productId : option string;
  it_description : string;
  it_itemCode : string;
  it_price : Q;
  it_qty : Q;
  it_image : option string
}.

(** [x || d] on a finite number: 0 is falsy. *)
Definition num_or (x : Q) (d : Q) : Q := if Qeq_bool x 0 then d else x.

(** [x || d] on a string: "" is falsy. *)
Definition str_or (x : string) (d : string) : string :=
  if String.eqb x "" then d else x.

(** [addItem(product?)]: the new line, with the id from [generateId()]. *)
Definition newItem (fresh : string) (product : option Product) : InvoiceItem :=
  {| it_id := fresh;
     it_productId := option_map p_id product;
     it_itemCode := match product with Some p => str_or (p_code p) "" | None => "" end;
     it_description :=
       match product with
       | Some p => p_name p ++ " - " ++ p_description p
       | None => ""
       end;
     it_price := match product with Some p => num_or (p_price p) 0 | None => 0 end;
     it_qty := 1;
     it_image := match product with Some p => p_image p | None => None end |}.

Definition addItem (fresh : string) (product : option Product)
  (items : list InvoiceItem) : list InvoiceItem :=
  items ++ [newItem fresh product].

(** The fields [updateItem] is called with, and the value written. *)
Inductive ItemField :=
| FItemCode (s : string)
| FDescription (s : string)
| FPrice (q : Q)
| FQty (q : Q)
| FImage (s : string).

(** [{ ...item, [field]: value }] *)
Definition setField (f : ItemField) (item : InvoiceItem) : InvoiceItem :=
  match f with
  | FItemCode s => {| it_id := it_id item; it_productId := it_productId item;
                      it_description := it_description item; it_itemCode := s;
                      it_price := it_price item; it_qty := it_qty item;
                      it_image := it_image item |}
  | FDescription s => {| it_id := it_id item; it_productId := it_productId item;
                      it_description := s; it_itemCode := it_itemCode item;
                      it_price := it_price item; it_qty := it_qty item;
                      it_image := it_image item |}
  | FPrice q => {| it_id := it_id item; it_productId := it_productId item;
                      it_description := it_description item; it_itemCode := it_itemCode item;
                      it_price := q; it_qty := it_qty item;
                      it_image := it_image item |}
  | FQty q => {| it_id := it_id item; it_productId := it_productId item;
                      it_description := it_description item; it_itemCode := it_itemCode item;
                      it_price := it_price item; it_qty := q;
                      it_image := it_image item |}
  | FImage s => {| it_id := it_id item; it_productId := it_productId item;
                      it_description := it_description item; it_itemCode := it_itemCode item;
                      it_price := it_price item; it_qty := it_qty item;
                      it_image := Some s |}
  end.

Definition updateItem (id : string) (f : ItemField) (items : list InvoiceItem)
  : list InvoiceItem :=
  map (fun item => if String.eqb (it_id item) id then setField f item else item) items.

Definition removeItem (id : string) (items : list InvoiceItem) : list InvoiceItem :=
  filter (fun i => negb (String.eqb (it_id i) id)) items.

(** [data.items.reduce((acc, item) => acc + (item.price * item.qty), 0)]
    in exact arithmetic; [InvoiceDouble] evaluates it as the code does, in
    doubles. *)
Definition calculateSubtotal (items : list InvoiceItem) : Q :=
  fold_left (fun acc item => acc + it_price item * it_qty item) items 0.

(** [calculateTotal] in exact arithmetic (see [InvoiceDouble]). *)
Definition calculateTotal (items : list InvoiceItem) (taxRate : Q) : Q :=
  let subtotal := calculateSubtotal items in
  let taxAmount := subtotal * (taxRate / 100) in
  subtotal + taxAmount.

(** The formula of the spec, as a plain recursive sum. *)
Fixpoint sum_price_qty (items : list InvoiceItem) : Q :=
  match items with
  | [] => 0
  | i :: rest => it_price i * it_qty i + sum_price_qty rest
  end.

End Invoice.

(* ------------------------------------------------------------------ *)
(** ** Table layout (InvoiceEditor) *)

Module Layout.

Record TableConfig := mkTableConfig {
  imageWidth : Q;
  itemWidth : Q;
  priceWidth : Q;
  qtyWidth : Q;
  totalWidth : Q;
  rowPadding : Q;
  fontSize : Q
}.

Definition DEFAULT_TABLE_CONFIG : TableConfig :=
  {| imageWidth := 10; itemWidth := 15; priceWidth := 15; qtyWidth := 10;
     totalWidth := 10; rowPadding := 8; fontSize := 14 |}.

(** [Math.max(a, b)] on finite numbers *)
Definition math_max (a b : Q) : Q := if Qle_bool a b then b else a.

Definition usedWidth (showImageColumn : bool) (tc : TableConfig) : Q :=
  (if showImageColumn then imageWidth tc else 0) + itemWidth tc + priceWidth tc
  + qtyWidth tc + totalWidth tc.

Definition descriptionWidth (showImageColumn : bool) (tc : TableConfig) : Q :=
  math_max 10 (100 - usedWidth showImageColumn tc).

(** The width the spec states: max(10, 100 - W) with W the sum of the
    image, item, price, qty and total widths. *)
Definition spec_descriptionWidth (tc : TableConfig) : Q :=
  math_max 10 (100 - (imageWidth tc + itemWidth tc + priceWidth tc
                      + qtyWidth tc + totalWidth tc)).

End Layout.

(* ------------------------------------------------------------------ *)
(** ** Drafts (InvoiceEditor.handleSaveDraft) *)

Module Drafts.
Import Invoice.

Record InvoiceData := mkData {
  d_id : option string;
  customerName : string;
  reference : string;
  date : string;
  items : list InvoiceItem;
  footerNote : string;
  savedAt : option string
}.

(** [d.id === draftId]: an undefined id equals no string. *)
Definition id_is (draftId : string) (d : InvoiceData) : bool :=
  match d_id d with
  | Some s => String.eqb s draftId
  | None => false
  end.

(** [Array.prototype.findIndex]; [None] stands for [-1]. *)
Fixpoint findIndex {A} (p : A -> bool) (l : list A) : option nat :=
  match l with
  | [] => None
  | x :: rest => if p x then Some O else option_map S (findIndex p rest)
  end.

(** [arr[i] = x] on a copy, for an index inside the array. *)
Fixpoint set_nth {A} (l : list A) (i : nat) (x : A) : list A :=
  match l, i with
  | [], _ => []
  | _ :: rest, O => x :: rest
  | y :: rest, S j => y :: set_nth rest j x
  end.

(** [data.id || generateId()]: [fresh] is the value [generateId()] returns. *)
Definition draftIdOf (fresh : string) (data : InvoiceData) : string :=
  match d_id data with
  | Some s => str_or s fresh
  | None => fresh
  end.

(** [{ ...data, id: draftId, savedAt: new Date().toLocaleString() }] *)
Definition draftToSave (fresh now : string) (data : InvoiceData) : InvoiceData :=
  {| d_id := Some (draftIdOf fresh data);
     customerName := customerName data;
     reference := reference data;
     date := date data;
     items := items data;
     footerNote := footerNote data;
     savedAt := Some now |}.

(** The new drafts collection written to [invoiceDrafts] and the new
    in-memory document. *)
Definition handleSaveDraft (fresh now : string) (data : InvoiceData)
  (savedDrafts : list InvoiceData) : list InvoiceData * InvoiceData :=
  let draftId := draftIdOf fresh data in
  let d := draftToSave fresh now data in
  match findIndex (id_is draftId) savedDrafts with
  | Some existingIndex => (set_nth savedDrafts existingIndex d, d)
  | None => (d :: savedDrafts, d)
  end.

Definition ids (ds : list InvoiceData) : list (option string) := map d_id ds.

End Drafts.

(* ------------------------------------------------------------------ *)
(** ** Catalog deletion (Inventory.handleDelete) next to the editor's items *)

Module Catalog.
Import Invoice.

(** The catalog of the Inventory view and the item list of the editor:
    two components with state of their own. *)
Record AppState := mkState {
  products : list Product;
  invoiceItems : list InvoiceItem
}.

(** [if (confirm(...)) saveProducts(products.filter(p => p.id !== id))];
    [confirmed] is the answer to the dialog. *)
Definition handleDelete (confirmed : bool) (id : string) (st : AppState) : AppState :=
  if confirmed
  then {| products := filter (fun p => negb (String.eqb (p_id p) id)) (products st);
          invoiceItems := invoiceItems st |}
  else st.

(** [addItem(product)] in the editor. *)
Definition editorAddItem (fresh : string) (product : option Product) (st : AppState)
  : AppState :=
  {| products := products st;
     invoiceItems := addItem fresh product (invoiceItems st) |}.

End Catalog.

(* ------------------------------------------------------------------ *)
(** ** AI extraction (Inventory.handleFileUpload) *)

Module Upload.
Import Json.

(** A thrown exception or a rejected promise inside the [try] block. *)
Inductive Res (A : Type) : Type :=
| Ok (a : A)
| Throw.
Arguments Ok {A} a.
Arguments Throw {A}.

Definition bind {A B} (m : Res A) (k : A -> Res B) : Res B :=
  match m with
  | Ok a => k a
  | Throw => Throw
  end.

Notation "'let*' x := m 'in' k" := (bind m (fun x => k))
  (at level 200, x name, m at level 100, k at level 200).

Definition of_option {A} (o : option A) : Res A :=
  match o with Some a => Ok a | None => Throw end.

Record File := mkFile { f_name : string; f_type : string }.

(** [s.endsWith(suffix)] *)
Definition endsWith (s suffix : string) : bool :=
  Nat.leb (String.length suffix) (String.length s) &&
  String.eqb (substring (String.length s - String.length suffix)
                        (String.length suffix) s) suffix.

(** [s.startsWith(prefix)] *)
Definition startsWith (s pre : string) : bool := String.prefix pre s.

Definition DOCX_MIME : string :=
  "application/vnd.openxmlformats-officedocument.wordprocessingml.document".

Definition isWord (file : File) : bool :=
  endsWith (f_name file) ".docx" || String.eqb (f_type file) DOCX_MIME.

(** [s.split(sep)] on a one-character separator. *)
Fixpoint split_on (sep : ascii) (s : string) : list string :=
  match s with
  | EmptyString => [EmptyString]
  | String c rest =>
      let parts := split_on sep rest in
      if Ascii.eqb c sep then EmptyString :: parts
      else match parts with
           | p :: ps => String c p :: ps
           | [] => [String c EmptyString]
           end
  end.

(** A part of the request; an [inlineData.data] of [undefined] is [None]. *)
Inductive Part :=
| PText (t : string)
| PInline (mimeType : string) (data : option string).

Definition WORD_INTRO : string :=
  "Here is the content of a Word document containing product information:".
Definition WORD_INSTRUCTION : string :=
  "Extract product information from this text. Return a list of products found. For each product, extract: code (or item number), name, description, and price (as a number). If price is missing, put 0.".
Definition FILE_INSTRUCTION : string :=
  "Extract product information from this document/image. Return a list of products found. For each product, extract: code (or item number), name, description, and price (as a number). If price is missing, put 0.".

(** The placeholder name of a product without one. *)
Definition NEW_PRODUCT_NAME : string := "منتج جديد".

(** What the outside world answers: the browser, mammoth, the Gemini
    service and [JSON.parse].  [None] is a rejection or a throw. *)
Record Env := mkEnv {
  apiKey : bool;                                (* process.env.API_KEY is truthy *)
  extractRawText : option string;               (* mammoth.extractRawText(...).value *)
  readBase64 : option string;                   (* FileReader payload of readAsDataURL *)
  generateContent : list Part -> option string; (* response.text, "" when undefined *)
  jsonParse : string -> option json;            (* JSON.parse *)
  generateId : nat -> string;                   (* the i-th generateId() of the batch *)
  storageWriteOk : bool                         (* localStorage.setItem does not throw *)
}.

(** [fileToBase64(file)]: the data URL FileReader produces. *)
Definition fileToBase64 (env : Env) (file : File) : Res string :=
  let* payload := of_option (readBase64 env) in
  Ok ("data:" ++ f_type file ++ ";base64," ++ payload).

(** [p.code] and the like: reading a property of [null] throws. *)
Definition prop (k : string) (v : json) : Res (option json) :=
  match v with
  | JNull => Throw
  | _ => Ok (get k v)
  end.

(** One element of [data.products.map(p => ({...}))], as [JSON.stringify]
    writes it: an [image] of [undefined] is left out. *)
Definition newProduct (id : string) (image : option string) (p : json) : Res json :=
  let* code := prop "code" p in
  let* name := prop "name" p in
  let* description := prop "description" p in
  let* price := prop "price" p in
  Ok (JObj ([("id", JStr id);
             ("code", or_default code (JStr "N/A"));
             ("name", or_default name (JStr NEW_PRODUCT_NAME));
             ("description", or_default description (JStr ""));
             ("price", or_default price (JNum 0))]
            ++ match image with Some b => [("image", JStr b)] | None => [] end)).

Fixpoint mapi_res (f : nat -> json -> Res json) (i : nat) (xs : list json)
  : Res (list json) :=
  match xs with
  | [] => Ok []
  | x :: rest =>
      let* y := f i x in
      let* ys := mapi_res f (S i) rest in
      Ok (y :: ys)
  end.

Inductive Status :=
| StIdle                (* no file chosen: nothing happens *)
| StMissingKeyAlert     (* alert("API Key is missing!") *)
| StProcessing          (* the "analysing..." message, cleared after 3 s *)
| StSuccess (n : nat)   (* "extracted n products" *)
| StNotFound            (* "no products found in the file" *)
| StError.              (* "an error occurred while processing" *)

Record Outcome := mkOutcome {
  out_stored : option json;   (* the persisted 'products' record *)
  out_memory : list json;     (* the component's products state *)
  out_status : Status
}.

(** The request of the [try] block: the parts sent to the service and the
    [base64Data] kept for the image ("" for a Word file). *)
Definition buildRequest (env : Env) (file : File) : Res (list Part * string) :=
  if isWord file then
    let* textContent := of_option (extractRawText env) in
    if String.eqb textContent "" then Throw
    else Ok ([PText WORD_INTRO; PText textContent; PText WORD_INSTRUCTION], "")
  else
    let* base64Data := fileToBase64 env file in
    let base64Content := nth_error (split_on "," base64Data) 1 in
    Ok ([PInline (f_type file) base64Content; PText FILE_INSTRUCTION], base64Data).

(** The image given to every new product. *)
Definition imageOf (file : File) (base64Data : string) : option string :=
  if negb (isWord file) && negb (String.eqb base64Data "")
     && startsWith (f_type file) "image"
  then Some base64Data else None.

(** The rest of the [try] block: the new in-memory catalog to save, if
    any, and the status, or a throw. *)
Definition uploadBody (env : Env) (file : File) (products : list json)
  : Res (option (list json) * Status) :=
  let* request := buildRequest env file in
  let (parts, base64Data) := request in
  let* text := of_option (generateContent env parts) in
  if String.eqb text "" then Ok (None, StProcessing)
  else
    let* data := of_option (jsonParse env text) in
    let* products_field := prop "products" data in
    match products_field with
    | Some (JArr es) =>
        let image := imageOf file base64Data in
        let* newItems := mapi_res (fun i p => newProduct (generateId env i) image p) 0 es in
        Ok (Some (app products newItems), StSuccess (List.length newItems))
    | _ => Ok (None, StNotFound)
    end.

(** [handleFileUpload]: [stored] is the [products] record before the call,
    [products] the component's in-memory catalog; the outcome gives both
    after the call, and the status message. *)
Definition handleFileUpload (env : Env) (file : option File) (products : list json)
  (stored : option json) : Outcome :=
  match file with
  | None => mkOutcome stored products StIdle
  | Some f =>
      if negb (apiKey env) then mkOutcome stored products StMissingKeyAlert
      else
        match uploadBody env f products with
        | Ok (Some newProducts, st) =>
            (* saveProducts: setProducts, then localStorage.setItem *)
            if storageWriteOk env
            then mkOutcome (Some (JArr newProducts)) newProducts st
            else mkOutcome stored newProducts StError
        | Ok (None, st) => mkOutcome stored products st
        | Throw => mkOutcome stored products StError
        end
  end.

Definition productFields (id : string) (p : json) : list (string * json) :=
  [("id", JStr id);
   ("code", or_default (get "code" p) (JStr "N/A"));
   ("name", or_default (get "name" p) (JStr NEW_PRODUCT_NAME));
   ("description", or_default (get "description" p) (JStr ""));
   ("price", or_default (get "price" p) (JNum 0))].

Definition imageFields (image : option string) : list (string * json) :=
  match image with Some b => [("image", JStr b)] | None => [] end.

(** The steps of the [try] block that can fail: reading the file or
    extracting the Word text (inside [buildRequest]), the service call,
    and [JSON.parse] of its answer. *)
Definition step_fails (env : Env) (f : File) : Prop :=
  buildRequest env f = Throw \/
  exists parts b64, buildRequest env f = Ok (parts, b64) /\
    (generateContent env parts = None \/
     exists text, generateContent env parts = Some text /\ text <> "" /\
                  jsonParse env text = None).

(** A sample image upload. *)
Definition dataW : json :=
  JObj [("products", JArr [JObj [("name", JStr "Chair"); ("price", JNum 12)]])].

Definition envW : Env :=
  {| apiKey := true; extractRawText := None; readBase64 := Some "AAAA";
     generateContent := fun _ => Some "{...}"; jsonParse := fun _ => Some dataW;
     generateId := fun _ => "k3x9"; storageWriteOk := true |}.

Definition fileW : File := mkFile "chair.png" "image/png".

End Upload.

(* ------------------------------------------------------------------ *)
(** ** Loading the settings record (SettingsView and InvoiceEditor) *)

Module SettingsLoad.
Import Json.

Definition DEFAULT_COLOR : string := "#3b82f6".

Definition DEFAULT_TABLE_CONFIG_FIELDS : list (string * json) :=
  [("imageWidth", JNum 10); ("itemWidth", JNum 15); ("priceWidth", JNum 15);
   ("qtyWidth", JNum 10); ("totalWidth", JNum 10); ("rowPadding", JNum 8);
   ("fontSize", JNum 14)].

Definition DEFAULT_TABLE_CONFIG : json := JObj DEFAULT_TABLE_CONFIG_FIELDS.

Definition tableConfigKeys : list string := map fst DEFAULT_TABLE_CONFIG_FIELDS.

Definition appSettingsKeys : list string :=
  ["companyLogo"; "taxRate"; "themeColor"; "showImageColumn"; "tableConfig"].

(** The settings the component starts with, kept when nothing is stored. *)
Definition initialSettings : json :=
  JObj [("companyLogo", JStr ""); ("taxRate", JNum 0);
        ("themeColor", JStr DEFAULT_COLOR); ("showImageColumn", JBool true);
        ("tableConfig", DEFAULT_TABLE_CONFIG)].

(** The [useEffect] of SettingsView (the one of InvoiceEditor is the same
    code): [stored] is the parsed [appSettings] record.  [None] in the
    result is the TypeError of reading a property of [null].  A repeated
    key in an object stands for the object where the last one wins. *)
Definition loadSettings (stored : option json) : option json :=
  match stored with
  | None => Some initialSettings
  | Some JNull => None
  | Some parsed =>
      let tc := get "tableConfig" parsed in
      Some (JObj (spread_fields (Some parsed) ++
        [("themeColor", or_default (get "themeColor" parsed) (JStr DEFAULT_COLOR));
         ("showImageColumn",
            match get "showImageColumn" parsed with
            | Some v => v
            | None => JBool true
            end);
         ("tableConfig",
            if truthy tc
            then JObj (DEFAULT_TABLE_CONFIG_FIELDS ++ spread_fields tc)
            else DEFAULT_TABLE_CONFIG)]))
  end.

End SettingsLoad.

(* ------------------------------------------------------------------ *)
(** ** Backup and restore (SettingsView.handleBackup / handleRestore) *)

Module Backup.
Import Json.

(** The three records the app keeps in [localStorage]; [None] is a key
    that was never written ([getItem] returns [null]). *)
Record Store := mkStore {
  s_products : option json;       (* 'products' *)
  s_invoiceDrafts : option json;  (* 'invoiceDrafts' *)
  s_appSettings : option json     (* 'appSettings' *)
}.

(** [JSON.parse(localStorage.getItem(key) || fallback)] *)
Definition readOr (v : option json) (fallback : json) : json :=
  match v with Some x => x | None => fallback end.

(** The object [handleBackup] serialises into the backup file. *)
Definition handleBackup (st : Store) : json :=
  JObj [("products", readOr (s_products st) (JArr []));
        ("drafts", readOr (s_invoiceDrafts st) (JArr []));
        ("settings", readOr (s_appSettings st) (JObj []))].

(** [if (data.k) localStorage.setItem(key, JSON.stringify(data.k))] *)
Definition restoreKey (field : option json) (current : option json) : option json :=
  if truthy field then field else current.

(** [handleRestore] on the parsed file [data]; [None] is the [catch]
    branch (a property read on [null]). *)
Definition handleRestore (data : json) (st : Store) : option Store :=
  match data with
  | JNull => None
  | _ =>
      Some {| s_products := restoreKey (get "products" data) (s_products st);
              s_invoiceDrafts := restoreKey (get "drafts" data) (s_invoiceDrafts st);
              s_appSettings := restoreKey (get "settings" data) (s_appSettings st) |}
  end.

Definition emptyStore : Store := mkStore None None None.


End Backup.

(* ------------------------------------------------------------------ *)
(** ** Numeric form inputs: [parseFloat(e.target.value) || 0] *)

Module NumInput.

(** A JavaScript number: NaN, the infinities, or a finite value (the
    finite values idealised as exact rationals; -0 is [Fin 0]). *)
Inductive jsnum :=
| NaN
| PosInf
| NegInf
| Fin (q : Q).

Definition is_ws (c : ascii) : bool :=
  match nat_of_ascii c with
  | 9 | 10 | 11 | 12 | 13 | 32 => true
  | _ => false
  end%nat.

(** [trimStart] over the ASCII white space.  JavaScript also skips the
    Unicode spaces (U+00A0, U+FEFF, U+2028, U+2029 and the Zs class); they
    are left out, as the value of a number input never holds one. *)
Fixpoint skip_ws (s : string) : string :=
  match s with
  | String c rest => if is_ws c then skip_ws rest else s
  | EmptyString => s
  end.

Definition digit_val (c : ascii) : option Z :=
  let n := nat_of_ascii c in
  if Nat.leb 48 n && Nat.leb n 57 then Some (Z.of_nat (n - 48)) else None.

(** The longest run of decimal digits, accumulated onto [acc]: the value,
    the number of digits read and the rest. *)
Fixpoint digits (s : string) (acc : Z) (n : nat) : Z * nat * string :=
  match s with
  | String c rest =>
      match digit_val c with
      | Some d => digits rest (10 * acc + d) (S n)
      | None => (acc, n, s)
      end
  | EmptyString => (acc, n, s)
  end.

(** An ExponentPart after the mantissa: its value, 0 when there is none. *)
Definition exponent (s : string) : Z :=
  match s with
  | String e rest =>
      if Ascii.eqb e "e" || Ascii.eqb e "E" then
        let '(sign, r) :=
          match rest with
          | String c r => if Ascii.eqb c "+" then (1%Z, r)
                          else if Ascii.eqb c "-" then ((-1)%Z, r)
                          else (1%Z, rest)
          | EmptyString => (1%Z, rest)
          end in
        let '(ev, nd, _) := digits r 0 0 in
        if Nat.eqb nd 0 then 0%Z else (sign * ev)%Z
      else 0%Z
  | EmptyString => 0%Z
  end.

(** The StrUnsignedDecimalLiteral prefix of [s], as an exact value. *)
Definition unsigned_value (s : string) : option Q :=
  let '(intv, n1, r1) := digits s 0 0 in
  let '(m, n2, r2) :=
    match r1 with
    | String c r => if Ascii.eqb c "." then digits r intv 0 else (intv, O, r1)
    | EmptyString => (intv, O, r1)
    end in
  if Nat.eqb (n1 + n2) 0 then None
  else Some (inject_Z m * Qpower (inject_Z 10) (exponent r2 - Z.of_nat n2)).

(** Rounding to a double, for the magnitude only: at or beyond
    2^1024 - 2^970 the result is Infinity, at or below 2^-1075 it is 0. *)
Definition OVERFLOW : Q := inject_Z (2 ^ 1024 - 2 ^ 970).
Definition UNDERFLOW : Q := Qpower (inject_Z 2) (-1075).

Definition to_double (neg : bool) (v : Q) : jsnum :=
  if Qle_bool OVERFLOW v then (if neg then NegInf else PosInf)
  else if Qle_bool v UNDERFLOW then Fin 0
  else Fin (if neg then - v else v).

(** [parseFloat(s)] *)
Definition parseFloat (s : string) : jsnum :=
  let t := skip_ws s in
  let '(neg, u) :=
    match t with
    | String c r => if Ascii.eqb c "-" then (true, r)
                    else if Ascii.eqb c "+" then (false, r)
                    else (false, t)
    | EmptyString => (false, t)
    end in
  if String.prefix "Infinity" u then (if neg then NegInf else PosInf)
  else match unsigned_value u with
       | Some v => to_double neg v
       | None => NaN
       end.

Definition truthy_num (x : jsnum) : bool :=
  match x with
  | NaN => false
  | Fin q => negb (Qeq_bool q 0)
  | PosInf | NegInf => true
  end.

(** [parseFloat(e.target.value) || 0]: the value the price, qty and tax
    rate inputs of the editor and settings, and the price input of the
    product edit modal, store. *)
Definition numberFromInput (value : string) : jsnum :=
  let x := parseFloat value in
  if truthy_num x then x else Fin 0.

(** A run of one or more ASCII digits followed by the end of the string. *)
Definition digits_to_end (s : string) : bool :=
  let '(_, n, rest) := digits s 0 0 in
  negb (Nat.eqb n 0) && String.eqb rest "".

(** The optional exponent of a valid floating-point number:
    (e|E), an optional sign, one or more digits, and nothing after. *)
Definition exponent_to_end (s : string) : bool :=
  match s with
  | EmptyString => true
  | String e rest =>
      (Ascii.eqb e "e" || Ascii.eqb e "E") &&
      match rest with
      | String c r => if Ascii.eqb c "+" || Ascii.eqb c "-" then digits_to_end r
                      else digits_to_end rest
      | EmptyString => false
      end
  end.

(** HTML's "valid floating-point number": an optional '-', then digits,
    digits '.' digits, or '.' digits, then an optional exponent. *)
Definition valid_float (s : string) : bool :=
  let u := match s with
           | String c r => if Ascii.eqb c "-" then r else s
           | EmptyString => s
           end in
  let '(_, n1, r1) := digits u 0 0 in
  match r1 with
  | String c r =>
      if Ascii.eqb c "." then
        let '(_, n2, r2) := digits r 0 0 in
        negb (Nat.eqb n2 0) && exponent_to_end r2
      else negb (Nat.eqb n1 0) && exponent_to_end r1
  | EmptyString => negb (Nat.eqb n1 0)
  end.

(** The value sanitization of [<input type="number">]: [e.target.value]
    is the text typed when it is a valid floating-point number whose value
    is a finite double, and "" otherwise (the browser's parse of "1e999"
    or of "Infinity" fails). *)
Definition sanitizeNumber (raw : string) : string :=
  if valid_float raw then
    match parseFloat raw with
    | Fin _ => raw
    | _ => ""
    end
  else "".

End NumInput.

(* ------------------------------------------------------------------ *)
(** ** Other handlers of the catalog, the drafts and the editor *)

Module CatalogOps.
Import Invoice.

(** [Inventory.handleEditSave]: [editing] is the product of the modal. *)
Definition handleEditSave (editing : option Product) (products : list Product)
  : list Product :=
  match editing with
  | Some e => map (fun p => if String.eqb (p_id p) (p_id e) then e else p) products
  | None => products
  end.

End CatalogOps.

Module DraftOps.
Import Drafts.

(** [d.id !== id] on a possibly undefined id: [undefined !== undefined] is
    false. *)
Definition opt_eqb (a b : option string) : bool :=
  match a, b with
  | Some x, Some y => String.eqb x y
  | None, None => true
  | _, _ => false
  end.

(** [InvoiceEditor.handleDeleteDraft(draft.id!, e)]; [confirmed] is the
    answer to the dialog. *)
Definition handleDeleteDraft (confirmed : bool) (id : option string)
  (savedDrafts : list InvoiceData) : list InvoiceData :=
  if confirmed then filter (fun d => negb (opt_eqb (d_id d) id)) savedDrafts
  else savedDrafts.

End DraftOps.

Module EditorOps.
Import Invoice.

(** The empty rows after the items: [Array.from({ length: 5 - n })] when
    [n < 5]. *)
Definition fillerRows (n : nat) : nat := if Nat.ltb n 5 then (5 - n)%nat else O.

(** [s.includes(q)] *)
Fixpoint includes (s q : string) : bool :=
  String.prefix q s ||
  match s with
  | EmptyString => false
  | String _ rest => includes rest q
  end.

Section Search.
(** [String.prototype.toLowerCase], left abstract. *)
Variable toLowerCase : string -> string.

(** The search [useEffect] of the product picker: the filtered inventory. *)
Definition filterInventory (searchQuery : string) (inventory : list Product)
  : list Product :=
  if String.eqb searchQuery "" then inventory
  else
    let q := toLowerCase searchQuery in
    filter (fun p => includes (toLowerCase (p_name p)) q
                     || includes (toLowerCase (p_code p)) q) inventory.
End Search.

End EditorOps.

(* ------------------------------------------------------------------ *)
(** ** Theme colour: [hexToRgb] *)

Module Theme.
Local Open Scope nat_scope.

(** [Number.prototype.toString()] of a natural number: its decimal digits. *)
Fixpoint dec_aux (fuel n : nat) (acc : string) : string :=
  match fuel with
  | O => acc
  | S f =>
      let acc' := String (ascii_of_nat (48 + n mod 10)) acc in
      match n / 10 with
      | O => acc'
      | m => dec_aux f m acc'
      end
  end.

Definition string_of_nat (n : nat) : string := dec_aux (S n) n "".

(** A character of the class [[a-f\d]] under the [i] flag, and its value
    for [parseInt(_, 16)]. *)
Definition hex_val (c : ascii) : option nat :=
  let n := nat_of_ascii c in
  if Nat.leb 48 n && Nat.leb n 57 then Some (n - 48)
  else if Nat.leb 97 n && Nat.leb n 102 then Some (n - 87)
  else if Nat.leb 65 n && Nat.leb n 70 then Some (n - 55)
  else None.

Definition FALLBACK_RGB : string := "59, 130, 246".

Definition rgbString (r g b : nat) : string :=
  string_of_nat r ++ ", " ++ string_of_nat g ++ ", " ++ string_of_nat b.

(** [hexToRgb]: the match of [/^#?([a-f\d]{2})([a-f\d]{2})([a-f\d]{2})$/i]. *)
Definition hexToRgb (hex : string) : string :=
  let body := match hex with
              | String c rest => if Ascii.eqb c "#" then rest else hex
              | EmptyString => hex
              end in
  match body with
  | String a1 (String a2 (String b1 (String b2 (String c1 (String c2 EmptyString))))) =>
      match hex_val a1, hex_val a2, hex_val b1, hex_val b2, hex_val c1, hex_val c2 with
      | Some x1, Some x2, Some y1, Some y2, Some z1, Some z2 =>
          rgbString (16 * x1 + x2) (16 * y1 + y2) (16 * z1 + z2)
      | _, _, _, _, _, _ => FALLBACK_RGB
      end
  | _ => FALLBACK_RGB
  end.

(** Two-digit hexadecimal, in lower or upper case: the form of the
    palette's colours. *)
Definition hexdig (upper : bool) (k : nat) : ascii :=
  if Nat.ltb k 10 then ascii_of_nat (48 + k)
  else ascii_of_nat ((if upper then 55 else 87) + k).

Definition hex2 (upper : bool) (n : nat) : string :=
  String (hexdig upper (n / 16)) (String (hexdig upper (n mod 16)) EmptyString).

End Theme.

(* ------------------------------------------------------------------ *)
(** ** Settings edits (SettingsView) *)

Module SettingsOps.
Import Json.

(** [updateTableConfig(key, value)]:
    [{ ...prev, tableConfig: { ...prev.tableConfig, [key]: value } }]. *)
Definition updateTableConfig (key : string) (value : Q) (prev : json) : json :=
  JObj (spread_fields (Some prev) ++
        [("tableConfig",
          JObj (spread_fields (get "tableConfig" prev) ++ [(key, JNum value)]))]).

End SettingsOps.

(* ------------------------------------------------------------------ *)
(** ** Invoice arithmetic in double precision *)

Module InvoiceDouble.
Import PrimFloat.
Local Open Scope float_scope.
#[local] Set Warnings "-inexact-float".

(** The price and qty of an invoice item, as the JavaScript numbers (IEEE
    754 doubles) the code computes with. *)
Record Line := mkLine { price : float; qty : float }.

(** [data.items.reduce((acc, item) => acc + (item.price * item.qty), 0)] *)
Definition calculateSubtotal (items : list Line) : float :=
  fold_left (fun acc item => acc + price item * qty item) items 0.

(** [calculateTotal]: [subtotal + subtotal * (settings.taxRate / 100)]. *)
Definition calculateTotal (items : list Line) (taxRate : float) : float :=
  let subtotal := calculateSubtotal items in
  let taxAmount := subtotal * (taxRate / 100) in
  subtotal + taxAmount.

(** The tax line of the footer: [calculateSubtotal() * settings.taxRate / 100]. *)
Definition footerTax (items : list Line) (taxRate : float) : float :=
  calculateSubtotal items * taxRate / 100.

End InvoiceDouble.

(* ================================================================== *)
(** * Properties *)

Module JsonFacts.
Import Json.
Local Open Scope list_scope.

Lemma get_fold_acc : forall (k : string) (fs : list (string * json)) (acc : option json),
  fold_left (fun acc kv => if String.eqb (fst kv) k then Some (snd kv) else acc) fs acc
  = match fold_left (fun acc kv => if String.eqb (fst kv) k then Some (snd kv) else acc) fs None with
    | Some v => Some v
    | None => acc
    end.
Proof.
  intros k fs. induction fs as [|[k' v'] rest IH]; intros acc; simpl; [reflexivity|].
  destruct (String.eqb k' k).
  - rewrite IH. destruct (fold_left _ rest None); reflexivity.
  - apply IH.
Qed.

(** A key of the later fields shadows one of the earlier fields. *)
Lemma get_app : forall k a b,
  get k (JObj (a ++ b)) = match get k (JObj b) with Some v => Some v | None => get k (JObj a) end.
Proof.
  intros k a b. unfold get. rewrite fold_left_app. apply get_fold_acc.
Qed.

Lemma spread_falsy : forall v, truthy v = false -> spread_fields v = [].
Proof. intros [[ | | | | | ]|] H; try reflexivity; discriminate. Qed.

End JsonFacts.

Module InvoiceFacts.
Import Invoice.

Lemma subtotal_acc : forall items acc,
  fold_left (fun acc item => acc + it_price item * it_qty item) items acc
  == acc + sum_price_qty items.
Proof.
  induction items as [|i rest IH]; intros acc; simpl.
  - ring.
  - rewrite IH. ring.
Qed.

Lemma calculateSubtotal_sum : forall items,
  calculateSubtotal items == sum_price_qty items.
Proof.
  intros items. unfold calculateSubtotal. rewrite subtotal_acc. ring.
Qed.

End InvoiceFacts.

Module CatalogFacts.
Import Invoice Catalog.

(** C4: deleting a product from the catalog leaves every invoice item
    unchanged, in particular the items created from that product, which
    hold copies of its code, name/description, price and image. *)
Theorem delete_product_keeps_items : forall (confirmed : bool) (fresh : string)
    (p : Product) (st : AppState),
  let st1 := editorAddItem fresh (Some p) st in
  let st2 := handleDelete confirmed (p_id p) st1 in
  invoiceItems st2 = invoiceItems st1 /\
  invoiceItems st2 = (invoiceItems st ++ [newItem fresh (Some p)])%list /\
  (forall id st', invoiceItems (handleDelete confirmed id st') = invoiceItems st') /\
  it_productId (newItem fresh (Some p)) = Some (p_id p) /\
  it_itemCode (newItem fresh (Some p)) = p_code p /\
  it_description (newItem fresh (Some p)) = p_name p ++ " - " ++ p_description p /\
  it_price (newItem fresh (Some p)) == p_price p /\
  it_image (newItem fresh (Some p)) = p_image p.
Proof.
  intros confirmed fresh p st st1 st2.
  assert (Hkeep : forall id st', invoiceItems (handleDelete confirmed id st') = invoiceItems st').
  { intros id st'. unfold handleDelete. destruct confirmed; reflexivity. }
  repeat split.
  - apply Hkeep.
  - unfold st2. rewrite Hkeep. reflexivity.
  - apply Hkeep.
  - simpl. unfold str_or. destruct (String.eqb_spec (p_code p) "") as [E|E];
      [rewrite E|]; reflexivity.
  - simpl. unfold num_or. destruct (Qeq_bool (p_price p) 0) eqn:E.
    + apply Qeq_bool_eq in E. rewrite E. reflexivity.
    + reflexivity.
Qed.

End CatalogFacts.

Module LayoutFacts.
Import Layout.

(** C5 (counterexample): with the image column hidden and the default
    table configuration, the description column is 50% wide, not the
    40% of max(10, 100 - W). *)
Lemma descriptionWidth_hidden_image_cex :
  descriptionWidth false DEFAULT_TABLE_CONFIG == 50 /\
  spec_descriptionWidth DEFAULT_TABLE_CONFIG == 40.
Proof. split; reflexivity. Qed.

Lemma math_max_spec : forall a b,
  (a <= b /\ math_max a b = b) \/ (b < a /\ math_max a b = a).
Proof.
  intros a b. unfold math_max. destruct (Qle_bool a b) eqn:E.
  - left. split; [apply Qle_bool_iff; exact E | reflexivity].
  - right. split; [|reflexivity].
    apply Qnot_le_lt. intro H. apply Qle_bool_iff in H. congruence.
Qed.

(** C5 (amended): with W the sum of the item, price, qty and total widths,
    plus the image width when the image column is shown, the description
    width is max(10, 100 - W): at least 10, equal to 100 - W when
    W <= 90, and 10 when W >= 90. *)
Theorem descriptionWidth_derivation : forall (showImageColumn : bool) (tc : TableConfig),
  let W := (if showImageColumn then imageWidth tc else 0) + itemWidth tc
           + priceWidth tc + qtyWidth tc + totalWidth tc in
  descriptionWidth showImageColumn tc = math_max 10 (100 - W) /\
  10 <= descriptionWidth showImageColumn tc /\
  (W <= 90 -> descriptionWidth showImageColumn tc == 100 - W) /\
  (90 <= W -> descriptionWidth showImageColumn tc == 10) /\
  (showImageColumn = true ->
     descriptionWidth showImageColumn tc = spec_descriptionWidth tc).
Proof.
  intros show tc W.
  assert (Hd : descriptionWidth show tc = math_max 10 (100 - W)) by reflexivity.
  rewrite Hd.
  destruct (math_max_spec 10 (100 - W)) as [[Hle Hm]|[Hlt Hm]]; rewrite Hm;
    (split; [reflexivity|]);
    (split; [try lra|]);
    (split; [intros; lra|]);
    (split; [intros; lra|]);
    intros Hs; subst show; rewrite <- Hm; reflexivity.
Qed.

End LayoutFacts.

Module DraftFacts.
Import Invoice Drafts.
Local Open Scope list_scope.

Lemma findIndex_some {A} (p : A -> bool) : forall l i,
  findIndex p l = Some i ->
  exists x, nth_error l i = Some x /\ p x = true.
Proof.
  induction l as [|y rest IH]; intros i H; simpl in H; [discriminate|].
  destruct (p y) eqn:Py.
  - injection H as <-. exists y. split; [reflexivity | exact Py].
  - destruct (findIndex p rest) as [j|] eqn:Hj; simpl in H; [|discriminate].
    injection H as <-. destruct (IH j eq_refl) as [x [Hx Px]].
    exists x. split; [exact Hx | exact Px].
Qed.

Lemma findIndex_none {A} (p : A -> bool) : forall l,
  findIndex p l = None -> forall x, In x l -> p x = false.
Proof.
  induction l as [|y rest IH]; intros H x Hin; [destruct Hin|].
  simpl in H. destruct (p y) eqn:Py; [discriminate|].
  destruct (findIndex p rest) eqn:Hr; simpl in H; [discriminate|].
  destruct Hin as [<-|Hin]; [exact Py | exact (IH eq_refl x Hin)].
Qed.

Lemma set_nth_split {A} : forall (l : list A) i y x,
  nth_error l i = Some y ->
  set_nth l i x = firstn i l ++ x :: skipn (S i) l.
Proof.
  induction l as [|z rest IH]; intros i y x H; [destruct i; discriminate|].
  destruct i as [|j]; simpl in *.
  - reflexivity.
  - rewrite (IH j y x H). reflexivity.
Qed.

Lemma id_is_true : forall draftId d, id_is draftId d = true -> d_id d = Some draftId.
Proof.
  intros draftId d H. unfold id_is in H.
  destruct (d_id d) as [s|]; [|discriminate].
  apply String.eqb_eq in H. subst. reflexivity.
Qed.

Lemma id_is_In : forall draftId ds,
  In (Some draftId) (ids ds) <-> exists d, In d ds /\ id_is draftId d = true.
Proof.
  intros draftId ds. unfold ids. rewrite in_map_iff. split.
  - intros [d [Hd Hin]]. exists d. split; [exact Hin|].
    unfold id_is. rewrite Hd. apply String.eqb_refl.
  - intros [d [Hin Hd]]. exists d. split; [apply id_is_true; exact Hd | exact Hin].
Qed.

Lemma nth_error_split_map {A B} (f : A -> B) : forall (l : list A) i y,
  nth_error l i = Some y ->
  map f (firstn i l ++ y :: skipn (S i) l) = map f l.
Proof.
  intros l i y H. f_equal.
  rewrite <- (firstn_skipn i l) at 3. f_equal.
  revert l H. induction i as [|j IH]; intros [|z rest] H; simpl in *;
    try discriminate.
  - injection H as ->. reflexivity.
  - exact (IH rest H).
Qed.

(** Where the saved draft goes: the first entry with its id is replaced,
    or the draft is put in front. *)
Lemma handleSaveDraft_shape : forall fresh now data savedDrafts,
  let d := draftToSave fresh now data in
  let draftId := draftIdOf fresh data in
  (~ In (Some draftId) (ids savedDrafts) ->
     fst (handleSaveDraft fresh now data savedDrafts) = d :: savedDrafts) /\
  (In (Some draftId) (ids savedDrafts) ->
     exists i old, nth_error savedDrafts i = Some old /\ d_id old = Some draftId /\
       fst (handleSaveDraft fresh now data savedDrafts)
         = firstn i savedDrafts ++ d :: skipn (S i) savedDrafts).
Proof.
  intros fresh now data ds d draftId. unfold handleSaveDraft. fold draftId. fold d.
  split.
  - intros Hnot. destruct (findIndex (id_is draftId) ds) as [i|] eqn:Hf; [|reflexivity].
    exfalso. apply Hnot. apply id_is_In.
    destruct (findIndex_some _ _ _ Hf) as [x [Hx Px]].
    exists x. split; [eapply nth_error_In; exact Hx | exact Px].
  - intros Hin. destruct (findIndex (id_is draftId) ds) as [i|] eqn:Hf.
    + destruct (findIndex_some _ _ _ Hf) as [x [Hx Px]].
      exists i, x. split; [exact Hx|]. split; [apply id_is_true; exact Px|].
      simpl. apply (set_nth_split _ _ _ _ Hx).
    + exfalso. apply id_is_In in Hin. destruct Hin as [x [Hx Px]].
      rewrite (findIndex_none _ _ Hf x Hx) in Px. discriminate.
Qed.

(** C2: re-saving a draft whose (non-empty) id occurs in the collection
    replaces that entry in place: same length and same ids, so no id is
    duplicated; saving a draft with no id (or the falsy id "") gives it the
    generated id and the save time and adds exactly one entry, when the
    generated id is fresh for the collection. *)
Theorem saveDraft_upsert : forall (fresh now : string) (data : InvoiceData)
    (savedDrafts : list InvoiceData),
  let res := handleSaveDraft fresh now data savedDrafts in
  (forall s, d_id data = Some s -> s <> "" -> In (Some s) (ids savedDrafts) ->
     List.length (fst res) = List.length savedDrafts /\
     ids (fst res) = ids savedDrafts /\
     In (snd res) (fst res) /\ d_id (snd res) = Some s /\ savedAt (snd res) = Some now) /\
  ((d_id data = None \/ d_id data = Some "") -> ~ In (Some fresh) (ids savedDrafts) ->
     List.length (fst res) = S (List.length savedDrafts) /\
     fst res = snd res :: savedDrafts /\
     d_id (snd res) = Some fresh /\ savedAt (snd res) = Some now).
Proof.
  intros fresh now data ds res.
  destruct (handleSaveDraft_shape fresh now data ds) as [Hnew Hold].
  assert (Hsnd : snd res = draftToSave fresh now data).
  { unfold res, handleSaveDraft. destruct (findIndex _ _); reflexivity. }
  split.
  - intros s Hs Hne Hin.
    assert (Hid : draftIdOf fresh data = s).
    { unfold draftIdOf, str_or. rewrite Hs.
      destruct (String.eqb_spec s "") as [E|E]; [contradiction | reflexivity]. }
    rewrite Hid in Hold. destruct (Hold Hin) as [i [old [Hi [Hold_id Heq]]]].
    fold res in Heq. rewrite Hsnd.
    assert (Hids : ids (fst res) = ids ds).
    { rewrite Heq. unfold ids.
      rewrite <- (nth_error_split_map d_id ds i old Hi).
      rewrite !map_app. simpl. rewrite Hold_id. simpl. rewrite Hid. reflexivity. }
    split; [|split; [exact Hids|split; [|split]]].
    + rewrite <- (length_map d_id (fst res)), <- (length_map d_id ds).
      fold (ids (fst res)). fold (ids ds). rewrite Hids. reflexivity.
    + rewrite Heq. apply in_or_app. right. left. reflexivity.
    + simpl. rewrite Hid. reflexivity.
    + reflexivity.
  - intros Hnone Hfresh.
    assert (Hid : draftIdOf fresh data = fresh).
    { unfold draftIdOf. destruct Hnone as [E|E]; rewrite E; reflexivity. }
    rewrite Hid in Hnew. specialize (Hnew Hfresh). fold res in Hnew.
    rewrite Hnew, Hsnd. repeat split.
    simpl. rewrite Hid. reflexivity.
Qed.

(** C9: a draft whose id is not yet in the collection is put in front; a
    draft whose id is there replaces the first entry with that id at its
    position; every other draft is unchanged and keeps its order. *)
Theorem saveDraft_position : forall (fresh now : string) (data : InvoiceData)
    (savedDrafts : list InvoiceData),
  let d := draftToSave fresh now data in
  let draftId := draftIdOf fresh data in
  let updated := fst (handleSaveDraft fresh now data savedDrafts) in
  (~ In (Some draftId) (ids savedDrafts) -> updated = d :: savedDrafts) /\
  (In (Some draftId) (ids savedDrafts) ->
     exists i old, nth_error savedDrafts i = Some old /\ d_id old = Some draftId /\
       (forall j, (j < i)%nat -> forall o, nth_error savedDrafts j = Some o -> d_id o <> Some draftId) /\
       updated = firstn i savedDrafts ++ d :: skipn (S i) savedDrafts).
Proof.
  intros fresh now data ds d draftId updated.
  split.
  - apply (proj1 (handleSaveDraft_shape fresh now data ds)).
  - intros Hin. unfold updated, handleSaveDraft. fold draftId. fold d.
    assert (Hfirst : forall l i, findIndex (id_is draftId) l = Some i ->
              forall j, (j < i)%nat -> forall o, nth_error l j = Some o ->
              d_id o <> Some draftId).
    { induction l as [|y rest IH]; intros i Hf j Hj o Ho; simpl in Hf; [discriminate|].
      destruct (id_is draftId y) eqn:Py.
      - injection Hf as <-. lia.
      - destruct (findIndex (id_is draftId) rest) as [k|] eqn:Hk; simpl in Hf; [|discriminate].
        injection Hf as <-. destruct j as [|j'].
        + simpl in Ho. injection Ho as <-. intros E.
          unfold id_is in Py. rewrite E, String.eqb_refl in Py. discriminate.
        + simpl in Ho. apply (IH k eq_refl j'); [lia | exact Ho]. }
    destruct (findIndex (id_is draftId) ds) as [i|] eqn:Hf.
    + destruct (findIndex_some _ _ _ Hf) as [x [Hx Px]].
      exists i, x. split; [exact Hx|]. split; [apply id_is_true; exact Px|].
      split; [exact (Hfirst ds i Hf)|].
      simpl. apply (set_nth_split _ _ _ _ Hx).
    + exfalso. apply id_is_In in Hin. destruct Hin as [x [Hx Px]].
      rewrite (findIndex_none _ _ Hf x Hx) in Px. discriminate.
Qed.

End DraftFacts.

Module UploadFacts.
Import Json Upload JsonFacts.
Local Open Scope list_scope.

Lemma newProduct_ok : forall id image p, p <> JNull ->
  newProduct id image p = Ok (JObj (productFields id p ++ imageFields image)).
Proof.
  intros id image p Hp. unfold newProduct, prop.
  destruct p; try (exfalso; apply Hp; reflexivity); reflexivity.
Qed.

Lemma mapi_res_ok : forall (g : nat -> string) image es n,
  Forall (fun e => e <> JNull) es ->
  exists news,
    mapi_res (fun i p => newProduct (g i) image p) n es = Ok news /\
    List.length news = List.length es /\
    (forall i e, nth_error es i = Some e ->
       nth_error news i = Some (JObj (productFields (g (n + i)%nat) e ++ imageFields image))).
Proof.
  intros g image es. induction es as [|e rest IH]; intros n Hall.
  - exists []. split; [reflexivity|]. split; [reflexivity|].
    intros [|i] e' H; discriminate.
  - inversion Hall as [|? ? He Hrest]; subst.
    destruct (IH (S n) Hrest) as [news [Hm [Hl Hn]]].
    exists (JObj (productFields (g n) e ++ imageFields image) :: news).
    split; [|split].
    + simpl. rewrite newProduct_ok by exact He. simpl. rewrite Hm. reflexivity.
    + simpl. rewrite Hl. reflexivity.
    + intros [|i] e' H; simpl in H.
      * injection H as <-. simpl. rewrite Nat.add_0_r. reflexivity.
      * simpl. rewrite (Hn i e' H). rewrite Nat.add_succ_r. reflexivity.
Qed.

Lemma mapi_res_length : forall (f : nat -> json -> Res json) es n news,
  mapi_res f n es = Ok news -> List.length news = List.length es.
Proof.
  intros f es. induction es as [|e rest IH]; intros n news H; simpl in H.
  - injection H as <-. reflexivity.
  - destruct (f n e) as [y|]; simpl in H; [|discriminate].
    destruct (mapi_res f (S n) rest) as [ys|] eqn:Hr; simpl in H; [|discriminate].
    injection H as <-. simpl. rewrite (IH _ _ Hr). reflexivity.
Qed.

(** The image kept is the data URL exactly when the file is not taken for
    a Word file (by its name or its MIME type) and its MIME type is
    image/*. *)
Lemma imageOf_spec : forall env f parts b64,
  buildRequest env f = Ok (parts, b64) ->
  imageOf f b64 = if isWord f then None
                  else if startsWith (f_type f) "image" then Some b64 else None.
Proof.
  intros env f parts b64 Hreq. unfold imageOf, buildRequest in *.
  destruct (isWord f) eqn:Hw; simpl; [reflexivity|].
  - unfold fileToBase64 in Hreq.
    destruct (readBase64 env) as [payload|]; simpl in Hreq; [|discriminate].
    injection Hreq as _ <-. reflexivity.
Qed.

(** C6: when the service's response parses to an object whose [products]
    is an array of entries, every entry becomes one catalog product with a
    generated id, [code] defaulting to "N/A", [name] to the placeholder,
    [description] to "" and [price] to 0 when missing, the data URL of the
    upload attached exactly when the upload's MIME type is image/*, and
    the new products are appended to the catalog in one write.  The
    upload counts as an image when its MIME type is image/* and it is not
    taken for a Word file: a file whose name ends in ".docx", whatever its
    MIME type (empty or other), or whose MIME type is the Word one, gets no
    image. *)
Theorem upload_appends_defaulted_products :
  forall (env : Env) (f : File) (products : list json) (stored : option json)
    (parts : list Part) (b64 text : string) (data : json) (es : list json),
  apiKey env = true ->
  buildRequest env f = Ok (parts, b64) ->
  generateContent env parts = Some text -> text <> "" ->
  jsonParse env text = Some data ->
  get "products" data = Some (JArr es) ->
  Forall (fun e => e <> JNull) es ->
  storageWriteOk env = true ->
  exists news,
    handleFileUpload env (Some f) products stored
      = mkOutcome (Some (JArr (products ++ news))) (products ++ news)
                  (StSuccess (List.length es)) /\
    List.length news = List.length es /\
    forall i e, nth_error es i = Some e ->
      exists np, nth_error news i = Some np /\
        get "id" np = Some (JStr (generateId env i)) /\
        get "code" np = Some (or_default (get "code" e) (JStr "N/A")) /\
        get "name" np = Some (or_default (get "name" e) (JStr NEW_PRODUCT_NAME)) /\
        get "description" np = Some (or_default (get "description" e) (JStr "")) /\
        get "price" np = Some (or_default (get "price" e) (JNum 0)) /\
        (get "code" e = None -> get "code" np = Some (JStr "N/A")) /\
        (get "name" e = None -> get "name" np = Some (JStr NEW_PRODUCT_NAME)) /\
        (get "description" e = None -> get "description" np = Some (JStr "")) /\
        (get "price" e = None -> get "price" np = Some (JNum 0)) /\
        get "image" np = (if isWord f then None
                          else if startsWith (f_type f) "image" then Some (JStr b64) else None).
Proof.
  intros env f products stored parts b64 text data es
    Hkey Hreq Hgen Hne Hparse Hprods Hall Hwrite.
  destruct (mapi_res_ok (generateId env) (imageOf f b64) es 0 Hall)
    as [news [Hm [Hl Hn]]].
  exists news. split; [|split; [exact Hl|]].
  - unfold handleFileUpload. rewrite Hkey. simpl.
    unfold uploadBody. rewrite Hreq. simpl. rewrite Hgen.
    simpl. destruct (String.eqb_spec text "") as [E|_]; [contradiction|].
    rewrite Hparse. simpl.
    assert (Hprop : prop "products" data = Ok (Some (JArr es))).
    { unfold prop. destruct data; try discriminate; rewrite Hprods; reflexivity. }
    rewrite Hprop. simpl. rewrite Hm. simpl. rewrite Hwrite. rewrite Hl. reflexivity.
  - intros i e He. exists (JObj (productFields (generateId env i) e ++ imageFields (imageOf f b64))).
    split; [exact (Hn i e He)|].
    rewrite (imageOf_spec env f parts b64 Hreq).
    assert (Himg : forall k img, k <> "image" ->
      get k (JObj (productFields (generateId env i) e ++ imageFields img))
      = get k (JObj (productFields (generateId env i) e))).
    { intros k [b|] Hk; rewrite get_app; [|reflexivity].
      change (get k (JObj (imageFields (Some b))))
        with (if String.eqb "image" k then Some (JStr b) else None).
      destruct (String.eqb_spec "image" k) as [E|_]; [subst; contradiction|reflexivity]. }
    rewrite !Himg by discriminate.
    repeat split; try (intros Hmiss; cbn; rewrite Hmiss; reflexivity).
    rewrite get_app. destruct (isWord f); [|destruct (startsWith (f_type f) "image")];
      reflexivity.
Qed.

(** An image upload whose answer has one entry without a code. *)
Lemma upload_appends_defaulted_products_witness :
  exists news,
    handleFileUpload envW (Some fileW) [] None
      = mkOutcome (Some (JArr ([] ++ news))) ([] ++ news) (StSuccess 1) /\
    List.length news = 1%nat.
Proof.
  destruct (upload_appends_defaulted_products envW fileW [] None
              [PInline "image/png" (Some "AAAA"); PText FILE_INSTRUCTION]
              "data:image/png;base64,AAAA" "{...}" dataW
              [JObj [("name", JStr "Chair"); ("price", JNum 12)]]
              eq_refl
              ltac:(vm_compute; reflexivity)
              eq_refl
              ltac:(discriminate)
              eq_refl
              ltac:(vm_compute; reflexivity)
              ltac:(repeat constructor; discriminate)
              eq_refl)
    as [news [Hrun [Hlen _]]].
  exists news. split; [exact Hrun | exact Hlen].
Defined.

(** C7: if a step fails the status is the error message and the persisted
    [products] record is what it was; in every run the record is either
    unchanged or replaced once by the old catalog followed by one new
    product per entry of the response. *)
Theorem upload_atomic : forall (env : Env) (f : File) (products : list json) (stored : option json),
  let o := handleFileUpload env (Some f) products stored in
  (apiKey env = true -> step_fails env f ->
     out_stored o = stored /\ out_status o = StError /\ out_memory o = products) /\
  (out_status o = StError -> out_stored o = stored) /\
  (out_stored o = stored \/
   exists text data es news,
     jsonParse env text = Some data /\ get "products" data = Some (JArr es) /\
     List.length news = List.length es /\
     out_stored o = Some (JArr (products ++ news)) /\
     out_status o = StSuccess (List.length news)).
Proof.
  intros env f products stored o.
  (* What the body of the [try] block can return. *)
  assert (Hbody : forall r, uploadBody env f products = r ->
    r = Throw \/ (exists st, r = Ok (None, st) /\ st <> StError) \/
    exists text data es news,
      jsonParse env text = Some data /\ get "products" data = Some (JArr es) /\
      List.length news = List.length es /\
      r = Ok (Some (products ++ news), StSuccess (List.length news))).
  { intros r <-. unfold uploadBody.
    destruct (buildRequest env f) as [[parts b64]|]; simpl; [|left; reflexivity].
    destruct (generateContent env parts) as [text|]; simpl; [|left; reflexivity].
    destruct (String.eqb text ""); [right; left; exists StProcessing; split; [reflexivity|discriminate]|].
    destruct (jsonParse env text) as [data|] eqn:Hp; simpl; [|left; reflexivity].
    destruct (prop "products" data) as [pf|] eqn:Hpf; simpl; [|left; reflexivity].
    destruct pf as [[ | | | | es | ]|];
      try (right; left; exists StNotFound; split; [reflexivity|discriminate]).
    destruct (mapi_res _ 0 es) as [news|] eqn:Hm; simpl; [|left; reflexivity].
    right; right. exists text, data, es, news.
    split; [exact Hp|]. split.
    - unfold prop in Hpf. destruct data; try discriminate; injection Hpf as <-; reflexivity.
    - split; [exact (mapi_res_length _ _ _ _ Hm)|reflexivity]. }
  split; [|split].
  - intros Hkey Hfail. unfold o, handleFileUpload. rewrite Hkey. simpl.
    assert (Hthrow : uploadBody env f products = Throw).
    { unfold uploadBody. destruct Hfail as [Hb|[parts [b64 [Hb Hrest]]]]; rewrite Hb; [reflexivity|].
      simpl. destruct Hrest as [Hg|[text [Hg [Hne Hj]]]]; rewrite Hg; [reflexivity|].
      simpl. destruct (String.eqb_spec text "") as [E|_]; [contradiction|].
      rewrite Hj. reflexivity. }
    rewrite Hthrow. repeat split.
  - unfold o, handleFileUpload. destruct (negb (apiKey env)); [discriminate|].
    destruct (Hbody _ eq_refl) as [->|[[st [-> Hst]]|[text [data [es [news [_ [_ [_ ->]]]]]]]]];
      simpl; try reflexivity.
    destruct (storageWriteOk env); simpl; [discriminate|reflexivity].
  - unfold o, handleFileUpload. destruct (negb (apiKey env)); [left; reflexivity|].
    destruct (Hbody _ eq_refl) as [->|[[st [-> Hst]]|[text [data [es [news [Hp [Hd [Hl ->]]]]]]]]];
      simpl; try (left; reflexivity).
    destruct (storageWriteOk env); simpl; [|left; reflexivity].
    right. exists text, data, es, news. repeat split; assumption.
Qed.

End UploadFacts.

Module SettingsFacts.
Import Json JsonFacts SettingsLoad.
Local Open Scope list_scope.

(** C8 (counterexample): a stored settings record without [companyLogo]
    and [taxRate] loads with both still undefined. *)
Lemma loadSettings_keeps_missing_taxRate :
  exists loaded, loadSettings (Some (JObj [])) = Some loaded /\
    get "taxRate" loaded = None /\ get "companyLogo" loaded = None.
Proof. eexists. split; [reflexivity|]. split; reflexivity. Qed.

(** C8 (amended): loading a stored settings object copies [companyLogo]
    and [taxRate] as stored (undefined when missing), defaults [themeColor]
    when falsy and [showImageColumn] when missing, and gives every
    TableConfig field a value, the default one when the stored table
    configuration lacks it; with nothing stored, the settings keep their
    initial value, in which every field, and every TableConfig field, is
    defined. *)
Theorem loadSettings_defaults : forall (fs : list (string * json)),
  let parsed := JObj fs in
  (loadSettings None = Some initialSettings /\
   (forall k, In k appSettingsKeys -> get k initialSettings <> None) /\
   exists tc0, get "tableConfig" initialSettings = Some tc0 /\
     forall k, In k tableConfigKeys -> get k tc0 <> None) /\
  exists loaded, loadSettings (Some parsed) = Some loaded /\
    get "companyLogo" loaded = get "companyLogo" parsed /\
    get "taxRate" loaded = get "taxRate" parsed /\
    get "themeColor" loaded = Some (or_default (get "themeColor" parsed) (JStr DEFAULT_COLOR)) /\
    get "showImageColumn" loaded
      = Some (match get "showImageColumn" parsed with Some v => v | None => JBool true end) /\
    exists tc, get "tableConfig" loaded = Some tc /\
      forall k, In k tableConfigKeys ->
        get k tc <> None /\
        get k tc = match get k (JObj (spread_fields (get "tableConfig" parsed))) with
                   | Some v => Some v
                   | None => get k DEFAULT_TABLE_CONFIG
                   end.
Proof.
  intros fs parsed. split.
  { split; [reflexivity|]. split.
    - intros k Hk. simpl in Hk.
      repeat (destruct Hk as [<-|Hk]; [discriminate|]). destruct Hk.
    - exists DEFAULT_TABLE_CONFIG. split; [reflexivity|].
      intros k Hk. simpl in Hk.
      repeat (destruct Hk as [<-|Hk]; [discriminate|]). destruct Hk. }
  eexists. split; [reflexivity|].
  split; [rewrite get_app; reflexivity|].
  split; [rewrite get_app; reflexivity|].
  split; [rewrite get_app; reflexivity|].
  split; [rewrite get_app; reflexivity|].
  exists (if truthy (get "tableConfig" parsed)
          then JObj (DEFAULT_TABLE_CONFIG_FIELDS ++ spread_fields (get "tableConfig" parsed))
          else DEFAULT_TABLE_CONFIG).
  split; [rewrite get_app; reflexivity|].
  intros k Hk.
  assert (Hdef : get k DEFAULT_TABLE_CONFIG <> None).
  { simpl in Hk. repeat (destruct Hk as [<-|Hk]; [discriminate|]). destruct Hk. }
  assert (Heq : get k (if truthy (get "tableConfig" parsed)
                       then JObj (DEFAULT_TABLE_CONFIG_FIELDS ++ spread_fields (get "tableConfig" parsed))
                       else DEFAULT_TABLE_CONFIG)
                = match get k (JObj (spread_fields (get "tableConfig" parsed))) with
                  | Some v => Some v
                  | None => get k DEFAULT_TABLE_CONFIG
                  end).
  { destruct (truthy (get "tableConfig" parsed)) eqn:Ht.
    - apply get_app.
    - rewrite (spread_falsy _ Ht). reflexivity. }
  rewrite Heq. split; [|reflexivity].
  destruct (get k (JObj _)); [discriminate|exact Hdef].
Qed.

End SettingsFacts.

Module BackupFacts.
Import Json Backup.

(** C3 (counterexample): backing up a store where no record was ever
    written and restoring that file does not give the same store back: the
    three records now hold [], [] and {}. *)
Lemma backup_restore_empty_store :
  handleRestore (handleBackup emptyStore) emptyStore
    = Some (mkStore (Some (JArr [])) (Some (JArr [])) (Some (JObj []))) /\
  handleRestore (handleBackup emptyStore) emptyStore <> Some emptyStore.
Proof. split; [reflexivity | discriminate]. Qed.

Lemma restoreKey_readOr : forall x d, truthy (Some d) = true ->
  restoreKey (Some (readOr x d)) x = Some (readOr x d).
Proof.
  intros [v|] d Hd; unfold restoreKey, readOr; [|rewrite Hd; reflexivity].
  destruct (truthy (Some v)); reflexivity.
Qed.

(** C3 (amended): backup then restore leaves each of the three records
    that was present exactly as it was, and writes a record that was
    absent with the backup's fallback: [] for [products] and
    [invoiceDrafts], {} for [appSettings].  When all three are present the
    store is reproduced. *)
Theorem backup_restore_roundtrip : forall (st : Store),
  exists st', handleRestore (handleBackup st) st = Some st' /\
    s_products st' = Some (readOr (s_products st) (JArr [])) /\
    s_invoiceDrafts st' = Some (readOr (s_invoiceDrafts st) (JArr [])) /\
    s_appSettings st' = Some (readOr (s_appSettings st) (JObj [])) /\
    (s_products st <> None -> s_products st' = s_products st) /\
    (s_invoiceDrafts st <> None -> s_invoiceDrafts st' = s_invoiceDrafts st) /\
    (s_appSettings st <> None -> s_appSettings st' = s_appSettings st) /\
    (s_products st <> None -> s_invoiceDrafts st <> None -> s_appSettings st <> None ->
       st' = st).
Proof.
  intros [p d a]. eexists. split; [reflexivity|]. simpl.
  rewrite !restoreKey_readOr by reflexivity.
  repeat split;
    intros; destruct p, d, a; try contradiction; reflexivity.
Qed.

End BackupFacts.

Module NumInputFacts.
Import NumInput.

(** C10: every value the price, qty and tax rate inputs store is a real
    number and never NaN: the [<input type="number">] hands the handler
    the sanitized text, and the stored value is parseFloat of it when that
    is truthy and 0 otherwise, so an empty, non-numeric or out-of-range
    entry stores 0. *)
Theorem numberFromInput_real : forall (raw : string),
  let value := sanitizeNumber raw in
  numberFromInput value = (if truthy_num (parseFloat value) then parseFloat value else Fin 0) /\
  (exists q, numberFromInput value = Fin q) /\
  numberFromInput value <> NaN /\
  (valid_float raw = false -> numberFromInput value = Fin 0).
Proof.
  intros raw value.
  assert (Hfin : exists q, numberFromInput value = Fin q).
  { unfold value, sanitizeNumber. destruct (valid_float raw).
    - destruct (parseFloat raw) as [| | |q] eqn:E.
      + exists 0. reflexivity.
      + exists 0. reflexivity.
      + exists 0. reflexivity.
      + unfold numberFromInput. rewrite E. destruct (truthy_num (Fin q)).
        * exists q. reflexivity.
        * exists 0. reflexivity.
    - exists 0. reflexivity. }
  split; [reflexivity|]. split; [exact Hfin|]. split.
  - destruct Hfin as [q Hq]. rewrite Hq. discriminate.
  - intros Hv. unfold value, sanitizeNumber. rewrite Hv. reflexivity.
Qed.

Example numberFromInput_samples :
  numberFromInput (sanitizeNumber "") = Fin 0 /\
  numberFromInput (sanitizeNumber "abc") = Fin 0 /\
  sanitizeNumber "Infinity" = "" /\ sanitizeNumber "1e999" = "" /\
  numberFromInput (sanitizeNumber "2.5") = Fin (25 # 10).
Proof. vm_compute. repeat split. Qed.

End NumInputFacts.

(* ------------------------------------------------------------------ *)
(** ** Properties of the other handlers *)

Module ListFacts.

(** [filter] keeps a list whose elements all pass the test. *)
Lemma filter_keep_all : forall (A : Type) (f : A -> bool) (l : list A),
  (forall x, In x l -> f x = true) -> filter f l = l.
Proof.
  intros A f l H. induction l as [|a l IH]; simpl; [reflexivity|].
  rewrite (H a (or_introl eq_refl)). f_equal. apply IH. intros x Hx. apply H. right. exact Hx.
Qed.

End ListFacts.

Module CatalogOpsFacts.
Import Invoice Catalog CatalogOps.
Local Open Scope list_scope.

(** Deleting a product keeps exactly the products with another id, and
    leaves the catalog as it was when the dialog is declined or when no
    product has that id. *)
Theorem handleDelete_filter : forall (confirmed : bool) (id : string) (st : AppState),
  (forall p, In p (products (handleDelete true id st)) <-> In p (products st) /\ p_id p <> id) /\
  ((forall p, In p (products st) -> p_id p <> id) -> handleDelete confirmed id st = st) /\
  handleDelete false id st = st.
Proof.
  intros confirmed id [ps items]. simpl. split; [|split].
  - intros p. rewrite filter_In. rewrite negb_true_iff.
    destruct (String.eqb_spec (p_id p) id); split; intros [H1 H2]; try discriminate;
      split; auto; contradiction.
  - intros Hnone. unfold handleDelete. destruct confirmed; [|reflexivity]. simpl.
    f_equal. rewrite ListFacts.filter_keep_all; [reflexivity|]. intros x Hx.
    destruct (String.eqb_spec (p_id x) id); [exfalso; exact (Hnone x Hx e)|reflexivity].
  - reflexivity.
Qed.

(** Saving the edit modal replaces every product with the edited id by the
    edited product and leaves the others at their places; the ids and the
    length of the catalog do not change, and an edited product whose id is
    no longer in the catalog changes nothing. *)
Theorem handleEditSave_replaces : forall (e : Product) (ps : list Product),
  let res := handleEditSave (Some e) ps in
  map p_id res = map p_id ps /\
  List.length res = List.length ps /\
  (forall i p, nth_error ps i = Some p ->
     nth_error res i = Some (if String.eqb (p_id p) (p_id e) then e else p)) /\
  ((forall p, In p ps -> p_id p <> p_id e) -> res = ps).
Proof.
  intros e ps res. unfold res, handleEditSave.
  assert (Hids : map p_id (map (fun p => if String.eqb (p_id p) (p_id e) then e else p) ps)
                 = map p_id ps).
  { rewrite map_map. apply map_ext. intros p.
    destruct (String.eqb_spec (p_id p) (p_id e)) as [E|E]; [symmetry; exact E|reflexivity]. }
  split; [exact Hids|]. split.
  - rewrite <- (length_map p_id), Hids, length_map. reflexivity.
  - split.
    + intros i p H. rewrite nth_error_map, H. reflexivity.
    + intros Hnone. rewrite <- (map_id ps) at 2. apply map_ext_in. intros p Hp.
      destruct (String.eqb_spec (p_id p) (p_id e)) as [E|E];
        [exfalso; exact (Hnone p Hp E)|reflexivity].
Qed.

End CatalogOpsFacts.

Module DraftOpsFacts.
Import Invoice Drafts DraftOps.
Local Open Scope list_scope.

Lemma opt_eqb_true : forall a b, opt_eqb a b = true <-> a = b.
Proof.
  intros [x|] [y|]; simpl; split; intros H; try discriminate; try reflexivity.
  - apply String.eqb_eq in H. subst. reflexivity.
  - injection H as ->. apply String.eqb_refl.
Qed.

(** Deleting a draft removes every draft whose id is the given one (with
    an undefined id, every draft without an id) and keeps all others. *)
Theorem handleDeleteDraft_filter : forall (id : option string) (ds : list InvoiceData),
  (forall d, In d (handleDeleteDraft true id ds) <-> In d ds /\ d_id d <> id) /\
  handleDeleteDraft false id ds = ds.
Proof.
  intros id ds. split; [|reflexivity].
  intros d. unfold handleDeleteDraft. rewrite filter_In, negb_true_iff.
  destruct (opt_eqb (d_id d) id) eqn:E.
  - apply opt_eqb_true in E. split; [intros [_ H]; discriminate | intros [_ H]; contradiction].
  - split; intros [H1 H2]; split; auto.
    intros E'. apply opt_eqb_true in E'. congruence.
Qed.

(** Saving a draft that has no id yet and then deleting it gives the drafts
    collection back as it was, when the generated id is fresh. *)
Theorem saveDraft_then_delete : forall (fresh now : string) (data : InvoiceData)
    (ds : list InvoiceData),
  (d_id data = None \/ d_id data = Some "") ->
  ~ In (Some fresh) (ids ds) ->
  handleDeleteDraft true (d_id (snd (handleSaveDraft fresh now data ds)))
    (fst (handleSaveDraft fresh now data ds)) = ds.
Proof.
  intros fresh now data ds Hnone Hfresh.
  assert (Hid : draftIdOf fresh data = fresh).
  { unfold draftIdOf. destruct Hnone as [E|E]; rewrite E; reflexivity. }
  destruct (DraftFacts.handleSaveDraft_shape fresh now data ds) as [Hnew _].
  rewrite Hid in Hnew. rewrite (Hnew Hfresh).
  assert (Hsnd : snd (handleSaveDraft fresh now data ds) = draftToSave fresh now data).
  { unfold handleSaveDraft. destruct (findIndex _ _); reflexivity. }
  rewrite Hsnd. unfold handleDeleteDraft. simpl. rewrite Hid, String.eqb_refl. simpl.
  apply ListFacts.filter_keep_all. intros x Hx.
  destruct (opt_eqb (d_id x) (Some fresh)) eqn:E; [|reflexivity].
  apply opt_eqb_true in E. exfalso. apply Hfresh. rewrite <- E.
  apply in_map. exact Hx.
Qed.

Lemma saveDraft_then_delete_witness :
  let draftW := mkData None "Customer" "Ref 1" "01/01/2026" [] "note" None in
  handleDeleteDraft true (d_id (snd (handleSaveDraft "n3w" "now" draftW [draftW])))
    (fst (handleSaveDraft "n3w" "now" draftW [draftW])) = [draftW].
Proof.
  intros draftW. apply saveDraft_then_delete.
  - left. reflexivity.
  - simpl. intros [H|H]; [discriminate|contradiction].
Defined.

Lemma draftIdOf_saved : forall fresh fresh' now data,
  fresh <> "" -> draftIdOf fresh' (draftToSave fresh now data) = draftIdOf fresh data.
Proof.
  intros fresh fresh' now data Hf. unfold draftIdOf at 1. simpl. unfold str_or.
  destruct (String.eqb_spec (draftIdOf fresh data) "") as [E|E]; [|reflexivity].
  exfalso. unfold draftIdOf, str_or in E.
  destruct (d_id data) as [s|]; [|contradiction].
  destruct (String.eqb_spec s ""); [contradiction|contradiction].
Qed.

(** Saving a draft, then saving the document again (the in-memory
    document now carries the draft's id), updates that draft in place:
    the collection keeps its length and its ids, and the id is the one
    given at the first save. *)
Theorem saveDraft_twice : forall (fresh fresh' now now' : string) (data : InvoiceData)
    (ds : list InvoiceData),
  fresh <> "" ->
  let first := handleSaveDraft fresh now data ds in
  let second := handleSaveDraft fresh' now' (snd first) (fst first) in
  List.length (fst second) = List.length (fst first) /\
  ids (fst second) = ids (fst first) /\
  d_id (snd second) = d_id (snd first).
Proof.
  intros fresh fresh' now now' data ds Hf first second.
  assert (Hsnd : forall f n dt l, snd (handleSaveDraft f n dt l) = draftToSave f n dt).
  { intros f n dt l. unfold handleSaveDraft. destruct (findIndex _ _); reflexivity. }
  assert (Hd1 : snd first = draftToSave fresh now data) by apply Hsnd.
  assert (Hid : draftIdOf fresh' (snd first) = draftIdOf fresh data).
  { rewrite Hd1. apply draftIdOf_saved. exact Hf. }
  assert (Hin : In (Some (draftIdOf fresh' (snd first))) (ids (fst first))).
  { rewrite Hid. unfold ids. apply in_map_iff. exists (draftToSave fresh now data).
    split; [reflexivity|].
    destruct (DraftFacts.handleSaveDraft_shape fresh now data ds) as [Hnew Hold].
    assert (Hdec : forall a b : option string, {a = b} + {a <> b})
      by (decide equality; apply String.string_dec).
    destruct (in_dec Hdec (Some (draftIdOf fresh data)) (ids ds))
      as [Hin|Hnot].
    - destruct (Hold Hin) as [i [old [_ [_ E]]]]. unfold first. rewrite E.
      apply in_or_app. right. left. reflexivity.
    - unfold first. rewrite (Hnew Hnot). left. reflexivity. }
  destruct (DraftFacts.handleSaveDraft_shape fresh' now' (snd first) (fst first))
    as [_ Hold].
  destruct (Hold Hin) as [i [old [Hnth [Hold_id E]]]].
  assert (Hids : ids (fst second) = ids (fst first)).
  { unfold second. rewrite E. unfold ids.
    rewrite <- (DraftFacts.nth_error_split_map d_id (fst first) i old Hnth).
    rewrite !map_app. simpl. rewrite Hold_id. reflexivity. }
  split; [|split].
  - unfold ids in Hids. rewrite <- (length_map d_id), Hids, length_map. reflexivity.
  - exact Hids.
  - unfold second. rewrite Hsnd. simpl. rewrite Hid, Hd1. reflexivity.
Qed.

Lemma saveDraft_twice_witness :
  let data := mkData None "Customer" "Ref 1" "01/01/2026" [] "note" None in
  let first := handleSaveDraft "k3x9" "now" data [] in
  let second := handleSaveDraft "zz11" "later" (snd first) (fst first) in
  List.length (fst second) = List.length (fst first) /\
  ids (fst second) = ids (fst first) /\
  d_id (snd second) = d_id (snd first).
Proof.
  intros data. apply (saveDraft_twice "k3x9" "zz11" "now" "later" data []). discriminate.
Defined.

End DraftOpsFacts.

Module EditorOpsFacts.
Import Invoice EditorOps.
Local Open Scope list_scope.

Lemma num_or_zero : forall x, num_or x 0 == x.
Proof.
  intros x. unfold num_or. destruct (Qeq_bool x 0) eqn:E; [|reflexivity].
  apply Qeq_bool_eq in E. rewrite E. reflexivity.
Qed.

(** Adding a line raises the subtotal by the price of the product it was
    added from (a price of 0 for a blank line), since the new line has
    quantity 1. *)
Theorem addItem_subtotal : forall (fresh : string) (product : option Product)
    (items : list InvoiceItem),
  calculateSubtotal (addItem fresh product items)
  == calculateSubtotal items + match product with Some p => p_price p | None => 0 end.
Proof.
  intros fresh product items.
  rewrite !InvoiceFacts.calculateSubtotal_sum. unfold addItem.
  induction items as [|i rest IH]; simpl.
  - destruct product as [p|]; simpl; [rewrite num_or_zero|]; ring.
  - rewrite IH. ring.
Qed.

(** Removing the line just added, by its fresh id, gives the items back. *)
Theorem addItem_then_removeItem : forall (fresh : string) (product : option Product)
    (items : list InvoiceItem),
  ~ In fresh (map it_id items) ->
  removeItem fresh (addItem fresh product items) = items.
Proof.
  intros fresh product items Hfresh. unfold removeItem, addItem.
  rewrite filter_app. simpl. rewrite String.eqb_refl. simpl. rewrite app_nil_r.
  apply ListFacts.filter_keep_all. intros x Hx.
  destruct (String.eqb_spec (it_id x) fresh) as [E|E]; [|reflexivity].
  exfalso. apply Hfresh. rewrite <- E. apply in_map. exact Hx.
Qed.

Lemma addItem_then_removeItem_witness :
  removeItem "b" (addItem "b" None [newItem "a" None]) = [newItem "a" None].
Proof.
  apply addItem_then_removeItem. simpl. intros [H|H]; [discriminate|contradiction].
Defined.

Lemma updateItem_other : forall id f items,
  ~ In id (map it_id items) -> updateItem id f items = items.
Proof.
  intros id f items H. unfold updateItem. rewrite <- (map_id items) at 2.
  apply map_ext_in. intros x Hx.
  destruct (String.eqb_spec (it_id x) id) as [E|E]; [|reflexivity].
  exfalso. apply H. rewrite <- E. apply in_map. exact Hx.
Qed.

Lemma setField_id : forall f item, it_id (setField f item) = it_id item.
Proof. intros [] item; reflexivity. Qed.

(** Editing a field of a line keeps the ids of all lines and changes no
    line with another id; editing with an id that no line has changes
    nothing. *)
Theorem updateItem_frame : forall (items : list InvoiceItem) (id : string)
    (f : ItemField),
  map it_id (updateItem id f items) = map it_id items /\
  (forall i it, nth_error items i = Some it -> it_id it <> id ->
     nth_error (updateItem id f items) i = Some it) /\
  (~ In id (map it_id items) -> updateItem id f items = items).
Proof.
  intros items id f. split; [|split].
  - unfold updateItem. rewrite map_map. apply map_ext. intros x.
    destruct (String.eqb (it_id x) id); [apply setField_id|reflexivity].
  - intros i it Hi Hne. unfold updateItem. rewrite nth_error_map, Hi. simpl.
    apply String.eqb_neq in Hne. rewrite Hne. reflexivity.
  - apply updateItem_other.
Qed.

(** The item table always has at least five rows: the items, then empty
    rows up to five. *)
Theorem fillerRows_pad : forall (n : nat),
  (n + fillerRows n)%nat = Nat.max 5 n.
Proof.
  intros n. unfold fillerRows. destruct (Nat.ltb_spec n 5); lia.
Qed.

Lemma prefix_app : forall q b, String.prefix q (q ++ b)%string = true.
Proof.
  induction q as [|c q IH]; intros b; [destruct b; reflexivity|].
  simpl. destruct (ascii_dec c c) as [_|n]; [apply IH|contradiction n; reflexivity].
Qed.

(** [s.includes(q)] holds of every [s] with [q] inside it. *)
Lemma includes_infix : forall a q b, includes (a ++ q ++ b)%string q = true.
Proof.
  induction a as [|c a IH]; intros q b.
  - simpl. assert (H := prefix_app q b). destruct (String.append q b);
      cbn [includes]; rewrite H; reflexivity.
  - simpl. rewrite IH. apply orb_true_r.
Qed.

(** The product search: an empty query shows the whole inventory; the
    results are products of the inventory in their order; and every
    product whose lower-cased name or code contains the lower-cased query
    is among them. *)
Theorem filterInventory_spec : forall (toLowerCase : string -> string)
    (searchQuery : string) (inventory : list Product),
  filterInventory toLowerCase "" inventory = inventory /\
  (exists keep, filterInventory toLowerCase searchQuery inventory = filter keep inventory) /\
  (forall p, In p inventory ->
     (exists a b, toLowerCase (p_name p) = (a ++ toLowerCase searchQuery ++ b)%string \/
                  toLowerCase (p_code p) = (a ++ toLowerCase searchQuery ++ b)%string) ->
     In p (filterInventory toLowerCase searchQuery inventory)).
Proof.
  intros tl q inv. split; [reflexivity|]. split.
  - unfold filterInventory. destruct (String.eqb q "").
    + exists (fun _ => true). symmetry. apply ListFacts.filter_keep_all. reflexivity.
    + eexists. reflexivity.
  - intros p Hp [a [b Hab]]. unfold filterInventory.
    destruct (String.eqb q ""); [exact Hp|].
    apply filter_In. split; [exact Hp|].
    destruct Hab as [E|E]; rewrite E, includes_infix; [reflexivity|apply orb_true_r].
Qed.

End EditorOpsFacts.

Module ThemeFacts.
Import Theme.
Local Open Scope nat_scope.

Lemma hex_val_hexdig : forall u k, k < 16 -> hex_val (hexdig u k) = Some k.
Proof.
  intros u k Hk.
  do 16 (destruct k as [|k]; [destruct u; reflexivity|]). lia.
Qed.

Lemma hexdig_not_hash : forall u k, k < 16 -> Ascii.eqb (hexdig u k) "#" = false.
Proof.
  intros u k Hk.
  do 16 (destruct k as [|k]; [destruct u; reflexivity|]). lia.
Qed.

Lemma hex_val_lt : forall c n, hex_val c = Some n -> n < 16.
Proof.
  intros c n. unfold hex_val.
  destruct (Nat.leb_spec 48 (nat_of_ascii c)), (Nat.leb_spec (nat_of_ascii c) 57);
  destruct (Nat.leb_spec 97 (nat_of_ascii c)), (Nat.leb_spec (nat_of_ascii c) 102);
  destruct (Nat.leb_spec 65 (nat_of_ascii c)), (Nat.leb_spec (nat_of_ascii c) 70);
  simpl; intros Hs; try discriminate; injection Hs as <-; lia.
Qed.

Lemma byte_digits : forall n, n < 256 ->
  n / 16 < 16 /\ n mod 16 < 16 /\ 16 * (n / 16) + n mod 16 = n.
Proof.
  intros n Hn. pose proof (Nat.div_mod_eq n 16) as E.
  pose proof (Nat.mod_upper_bound n 16 ltac:(lia)). lia.
Qed.

Lemma hexToRgb_digits : forall (u hash : bool) x1 x2 y1 y2 z1 z2,
  x1 < 16 -> x2 < 16 -> y1 < 16 -> y2 < 16 -> z1 < 16 -> z2 < 16 ->
  hexToRgb ((if hash then "#" else "") ++
            String (hexdig u x1) (String (hexdig u x2) (String (hexdig u y1)
              (String (hexdig u y2) (String (hexdig u z1) (String (hexdig u z2) ""))))))
  = rgbString (16 * x1 + x2) (16 * y1 + y2) (16 * z1 + z2).
Proof.
  intros u hash x1 x2 y1 y2 z1 z2 H1 H2 H3 H4 H5 H6.
  pose proof (hexdig_not_hash u x1 H1) as N.
  pose proof (hex_val_hexdig u x1 H1) as V1. pose proof (hex_val_hexdig u x2 H2) as V2.
  pose proof (hex_val_hexdig u y1 H3) as V3. pose proof (hex_val_hexdig u y2 H4) as V4.
  pose proof (hex_val_hexdig u z1 H5) as V5. pose proof (hex_val_hexdig u z2 H6) as V6.
  remember (hexdig u x1) as c1. remember (hexdig u x2) as c2.
  remember (hexdig u y1) as c3. remember (hexdig u y2) as c4.
  remember (hexdig u z1) as c5. remember (hexdig u z2) as c6.
  unfold hexToRgb. destruct hash; simpl; [|rewrite N];
    rewrite V1, V2, V3, V4, V5, V6; reflexivity.
Qed.

(** [hexToRgb] reads back every colour written as six hexadecimal digits,
    in lower or upper case, with or without the leading '#'. *)
Theorem hexToRgb_roundtrip : forall (upper hash : bool) (r g b : nat),
  r < 256 -> g < 256 -> b < 256 ->
  hexToRgb ((if hash then "#" else "") ++ hex2 upper r ++ hex2 upper g ++ hex2 upper b)
  = rgbString r g b.
Proof.
  intros u hash r g b Hr Hg Hb.
  destruct (byte_digits r Hr) as [R1 [R2 R3]].
  destruct (byte_digits g Hg) as [G1 [G2 G3]].
  destruct (byte_digits b Hb) as [B1 [B2 B3]].
  replace (hex2 u r ++ hex2 u g ++ hex2 u b)%string with
    (String (hexdig u (r / 16)) (String (hexdig u (r mod 16))
      (String (hexdig u (g / 16)) (String (hexdig u (g mod 16))
        (String (hexdig u (b / 16)) (String (hexdig u (b mod 16)) ""))))))
    by reflexivity.
  rewrite (hexToRgb_digits u hash _ _ _ _ _ _ R1 R2 G1 G2 B1 B2), R3, G3, B3.
  reflexivity.
Qed.

Lemma hexToRgb_roundtrip_witness :
  hexToRgb ("#" ++ hex2 false 239 ++ hex2 false 68 ++ hex2 false 68) = rgbString 239 68 68.
Proof. apply (hexToRgb_roundtrip false true); lia. Defined.

(** Whatever the input, [hexToRgb] yields three byte values "r, g, b":
    the parsed colour or the fallback 59, 130, 246. *)
Theorem hexToRgb_bytes : forall (hex : string),
  (hexToRgb hex = FALLBACK_RGB \/
   exists r g b, r < 256 /\ g < 256 /\ b < 256 /\ hexToRgb hex = rgbString r g b) /\
  FALLBACK_RGB = rgbString 59 130 246.
Proof.
  intros hex. split; [|reflexivity].
  unfold hexToRgb.
  destruct (match hex with
            | String c rest => if Ascii.eqb c "#" then rest else hex
            | EmptyString => hex end)
    as [|a1 [|a2 [|b1 [|b2 [|c1 [|c2 [|? ?]]]]]]]; try (left; reflexivity).
  destruct (hex_val a1) eqn:E1; [|left; reflexivity].
  destruct (hex_val a2) eqn:E2; [|left; reflexivity].
  destruct (hex_val b1) eqn:E3; [|left; reflexivity].
  destruct (hex_val b2) eqn:E4; [|left; reflexivity].
  destruct (hex_val c1) eqn:E5; [|left; reflexivity].
  destruct (hex_val c2) eqn:E6; [|left; reflexivity].
  apply hex_val_lt in E1, E2, E3, E4, E5, E6.
  right. do 3 eexists. split; [|split; [|split; [|reflexivity]]]; lia.
Qed.

End ThemeFacts.

Module SettingsOpsFacts.
Import Json SettingsLoad SettingsOps.
Local Open Scope list_scope.

Lemma get_cons : forall k kv rest,
  get k (JObj (kv :: rest))
  = match get k (JObj rest) with
    | Some v => Some v
    | None => if String.eqb (fst kv) k then Some (snd kv) else None
    end.
Proof. intros k kv rest. exact (JsonFacts.get_app k [kv] rest). Qed.

Lemma get_one : forall k a x,
  get k (JObj [(a, x)]) = if String.eqb a k then Some x else None.
Proof. intros k a x. reflexivity. Qed.

Lemma get_nonobj : forall k v, get k (JObj (spread_fields (Some v))) = get k v.
Proof. intros k [] ; reflexivity. Qed.

Lemma get_spread : forall k v,
  get k (JObj (spread_fields v)) = match v with Some t => get k t | None => None end.
Proof. intros k [t|]; [apply get_nonobj|reflexivity]. Qed.

Lemma get_in_keys : forall k fs, In k (map fst fs) -> exists v, get k (JObj fs) = Some v.
Proof.
  intros k fs. induction fs as [|[a x] rest IH]; [intros []|].
  intros H. simpl in H. rewrite get_cons.
  destruct (get k (JObj rest)) as [v|] eqn:E; [exists v; reflexivity|].
  destruct H as [<-|H]; simpl.
  - rewrite String.eqb_refl. exists x. reflexivity.
  - destruct (IH H) as [v Hv]. congruence.
Qed.

(** [updateTableConfig(key, value)] writes [value] under [key] in the
    table configuration and changes no other key of it, nor any other
    setting. *)
Theorem updateTableConfig_get : forall (key : string) (value : Q) (prev : json),
  let next := updateTableConfig key value prev in
  let tcOf v := match get "tableConfig" v with Some t => t | None => JNull end in
  get "tableConfig" next <> None /\
  get key (tcOf next) = Some (JNum value) /\
  (forall k, k <> key -> get k (tcOf next) = get k (tcOf prev)) /\
  (forall k, k <> "tableConfig" -> get k next = get k prev).
Proof.
  intros key value prev next tcOf.
  assert (Htc : get "tableConfig" next
                = Some (JObj (spread_fields (get "tableConfig" prev) ++ [(key, JNum value)]))).
  { unfold next, updateTableConfig. rewrite JsonFacts.get_app, get_one, String.eqb_refl.
    reflexivity. }
  assert (Htc' : tcOf next = JObj (spread_fields (get "tableConfig" prev) ++ [(key, JNum value)])).
  { unfold tcOf. rewrite Htc. reflexivity. }
  split; [rewrite Htc; discriminate|].
  rewrite Htc'. split; [|split].
  - rewrite JsonFacts.get_app, get_one, String.eqb_refl. reflexivity.
  - intros k Hk. rewrite JsonFacts.get_app, get_one.
    apply String.eqb_neq in Hk. rewrite String.eqb_sym, Hk, get_spread.
    unfold tcOf. destruct (get "tableConfig" prev); reflexivity.
  - intros k Hk. unfold next, updateTableConfig. rewrite JsonFacts.get_app, get_one.
    apply String.eqb_neq in Hk. rewrite String.eqb_sym, Hk. apply get_nonobj.
Qed.

Lemma get_three : forall k a x b y c z,
  get k (JObj [(a, x); (b, y); (c, z)])
  = if String.eqb c k then Some z
    else if String.eqb b k then Some y
    else if String.eqb a k then Some x else None.
Proof.
  intros. unfold get. cbn [fold_left fst snd].
  destruct (String.eqb a k), (String.eqb b k), (String.eqb c k); reflexivity.
Qed.

(** Saving the settings ([handleSave]) and loading them back gives every
    saved setting again, when the theme colour is set, [showImageColumn]
    is defined and the table configuration is an object: each key of the
    saved table configuration keeps its value. *)
Theorem settings_save_load : forall (fs tfs : list (string * json)),
  truthy (get "themeColor" (JObj fs)) = true ->
  get "showImageColumn" (JObj fs) <> None ->
  get "tableConfig" (JObj fs) = Some (JObj tfs) ->
  exists loaded, loadSettings (Some (JObj fs)) = Some loaded /\
    (forall k, k <> "tableConfig" -> get k loaded = get k (JObj fs)) /\
    (exists ltc, get "tableConfig" loaded = Some ltc /\
       forall k, In k (map fst tfs) -> get k ltc = get k (JObj tfs)).
Proof.
  intros fs tfs Htheme Hshow Htc.
  eexists. split; [reflexivity|]. cbv zeta. rewrite Htc. simpl truthy. cbv iota.
  split.
  - intros k Hk. rewrite JsonFacts.get_app, get_three.
    apply String.eqb_neq in Hk. rewrite String.eqb_sym, Hk.
    destruct (String.eqb_spec "showImageColumn" k) as [<-|_].
    + destruct (get "showImageColumn" (JObj fs)); [reflexivity|contradiction].
    + destruct (String.eqb_spec "themeColor" k) as [<-|_]; [|reflexivity].
      unfold or_default. rewrite Htheme.
      destruct (get "themeColor" (JObj fs)); [reflexivity|discriminate].
  - eexists. split.
    + rewrite JsonFacts.get_app, get_three, String.eqb_refl. reflexivity.
    + intros k Hk. simpl spread_fields. rewrite JsonFacts.get_app.
      destruct (get_in_keys k tfs Hk) as [v Hv]. rewrite Hv. reflexivity.
Qed.

Lemma settings_save_load_witness :
  exists loaded,
    loadSettings (Some (JObj [("taxRate", JNum 15); ("themeColor", JStr "#ef4444");
                              ("showImageColumn", JBool false);
                              ("tableConfig", JObj [("fontSize", JNum 12)])]))
    = Some loaded /\
    (forall k, k <> "tableConfig" ->
       get k loaded = get k (JObj [("taxRate", JNum 15); ("themeColor", JStr "#ef4444");
                                   ("showImageColumn", JBool false);
                                   ("tableConfig", JObj [("fontSize", JNum 12)])])) /\
    (exists ltc, get "tableConfig" loaded = Some ltc /\
       forall k, In k (map fst [("fontSize", JNum 12)]) ->
         get k ltc = get k (JObj [("fontSize", JNum 12)])).
Proof.
  apply settings_save_load; vm_compute; [reflexivity|discriminate|reflexivity].
Defined.

End SettingsOpsFacts.

Module RestoreFacts.
Import Json Backup.

(** Restoring: an unreadable (null) file ends in the error branch, and a
    file whose [products], [drafts] and [settings] are all missing or
    falsy leaves the store as it was. *)
Theorem handleRestore_edges : forall (data : json) (st : Store),
  (data = JNull -> handleRestore data st = None) /\
  (data <> JNull -> truthy (get "products" data) = false ->
   truthy (get "drafts" data) = false -> truthy (get "settings" data) = false ->
   handleRestore data st = Some st).
Proof.
  intros data [p d a]. split.
  - intros ->. reflexivity.
  - intros Hn Hp Hd Hs. unfold handleRestore, restoreKey. rewrite Hp, Hd, Hs.
    destruct data; [contradiction|reflexivity..].
Qed.

End RestoreFacts.

Module UploadEdgeFacts.
Import Json Upload.
Local Open Scope list_scope.

(** An upload that yields no new product: an empty answer from the service
    leaves the catalog and its record as they were, with the
    "analysing..." status; an answer without a [products] array does the
    same with the "no products found" status; an empty [products] array
    saves the catalog unchanged and reports 0 extracted products. *)
Theorem upload_without_new_products : forall (env : Env) (f : File)
    (products : list json) (stored : option json) (parts : list Part) (b64 : string),
  apiKey env = true ->
  buildRequest env f = Ok (parts, b64) ->
  (generateContent env parts = Some "" ->
   handleFileUpload env (Some f) products stored = mkOutcome stored products StProcessing) /\
  (forall text data,
     generateContent env parts = Some text -> text <> "" ->
     jsonParse env text = Some data -> data <> JNull ->
     (forall es, get "products" data <> Some (JArr es)) ->
     handleFileUpload env (Some f) products stored = mkOutcome stored products StNotFound) /\
  (forall text data,
     generateContent env parts = Some text -> text <> "" ->
     jsonParse env text = Some data -> data <> JNull ->
     get "products" data = Some (JArr []) ->
     storageWriteOk env = true ->
     handleFileUpload env (Some f) products stored
     = mkOutcome (Some (JArr products)) products (StSuccess 0)).
Proof.
  intros env f products stored parts b64 Hkey Hreq.
  unfold handleFileUpload. rewrite Hkey. cbv iota beta. simpl negb. cbv iota.
  unfold uploadBody. rewrite Hreq. cbn [bind]. split; [|split].
  - intros Hgen. rewrite Hgen. reflexivity.
  - intros text data Hgen Hne Hparse Hnull Hnone.
    rewrite Hgen. cbn [bind of_option].
    apply String.eqb_neq in Hne. rewrite Hne.
    rewrite Hparse. cbn [bind of_option].
    assert (Hprop : prop "products" data = Ok (get "products" data))
      by (destruct data; [contradiction|reflexivity..]).
    rewrite Hprop. cbn [bind].
    destruct (get "products" data) as [[ | | | | es | ]|] eqn:E; try reflexivity.
    exfalso. exact (Hnone es eq_refl).
  - intros text data Hgen Hne Hparse Hnull Hempty Hwrite.
    rewrite Hgen. cbn [bind of_option].
    apply String.eqb_neq in Hne. rewrite Hne.
    rewrite Hparse. cbn [bind of_option].
    assert (Hprop : prop "products" data = Ok (get "products" data))
      by (destruct data; [contradiction|reflexivity..]).
    rewrite Hprop, Hempty. cbn [bind mapi_res]. rewrite app_nil_r, Hwrite. reflexivity.
Qed.

Lemma upload_without_new_products_witness :
  let envE := {| apiKey := true; extractRawText := None; readBase64 := Some "AAAA";
                 generateContent := fun _ => Some "{...}";
                 jsonParse := fun _ => Some (JObj [("products", JArr [])]);
                 generateId := fun _ => "k3x9"; storageWriteOk := true |} in
  handleFileUpload envE (Some fileW) [] None = mkOutcome (Some (JArr [])) [] (StSuccess 0).
Proof.
  intros envE.
  apply (proj2 (proj2 (upload_without_new_products envE fileW [] None
           [PInline "image/png" (Some "AAAA"); PText FILE_INSTRUCTION]
           "data:image/png;base64,AAAA"
           eq_refl ltac:(vm_compute; reflexivity)))
           "{...}" (JObj [("products", JArr [])])).
  - reflexivity.
  - discriminate.
  - reflexivity.
  - discriminate.
  - vm_compute. reflexivity.
  - reflexivity.
Defined.

End UploadEdgeFacts.

Module InvoiceDoubleFacts.
Import PrimFloat InvoiceDouble.
Local Open Scope float_scope.
#[local] Set Warnings "-inexact-float".

(** C1 (counterexample): one item of price 0.3 and qty 1 with a tax rate
    of 10: the total the code computes is 0.32999999999999996, while
    (sum of price*qty) * (1 + taxRate/100) is 0.33. *)
Lemma total_closed_form_cex :
  calculateTotal [mkLine 0.3 1] 10 = 0.32999999999999996 /\
  calculateSubtotal [mkLine 0.3 1] * (1 + 10 / 100) = 0.33 /\
  calculateTotal [mkLine 0.3 1] 10 <> calculateSubtotal [mkLine 0.3 1] * (1 + 10 / 100).
Proof. vm_compute. split; [reflexivity|]. split; [reflexivity|]. discriminate. Qed.

(** C1 (amended): for every list of items, so after any sequence of
    add/update/remove operations, the subtotal adds price*qty item after
    item from 0, the total is subtotal + subtotal*(taxRate/100), each
    operation rounded to a double; so the total is the closed formula only
    up to rounding: the subtotal depends on the order of the items (0.1,
    0.2, 0.3 sum to 0.6000000000000001, in reverse order to 0.6), and the
    footer's tax line subtotal*taxRate/100 need not add up with the
    subtotal to the total (0.05 at 10%: 0.055 against 0.05500000000000001). *)
Theorem total_in_doubles : forall (items : list Line) (l : Line) (taxRate : float),
  calculateSubtotal [] = 0 /\
  calculateSubtotal (app items [l]) = calculateSubtotal items + price l * qty l /\
  calculateTotal items taxRate
    = calculateSubtotal items + calculateSubtotal items * (taxRate / 100) /\
  calculateSubtotal [mkLine 0.1 1; mkLine 0.2 1; mkLine 0.3 1] = 0.6000000000000001 /\
  calculateSubtotal [mkLine 0.3 1; mkLine 0.2 1; mkLine 0.1 1] = 0.6 /\
  calculateSubtotal [mkLine 0.05 1] + footerTax [mkLine 0.05 1] 10 = 0.055 /\
  calculateTotal [mkLine 0.05 1] 10 = 0.05500000000000001.
Proof.
  intros items l taxRate. split; [reflexivity|]. split.
  - unfold calculateSubtotal. rewrite fold_left_app. reflexivity.
  - split; [reflexivity|]. vm_compute. repeat split.
Qed.

End InvoiceDoubleFacts.
